(** * Recon MCP server: field-mapping templates and the token-aware API client

    A shallow embedding of [config.py] and [recon_api.py] of the
    recon-mcp-server, with the tool layer of its [main.py], and the
    properties of its specification.

    Conventions of the embedding.
    - Python strings are [string]s; [str.lower] is modelled on the ASCII
      letters (no non-ASCII character lowercases to a letter of "samsung").
    - Python objects that the code shares and can mutate (the module-level
      template of [config.py]) live in a heap of objects addressed by
      location; values decoded from a response body are fresh trees ([Json]).
    - A call either returns or raises: [Outcome].
    - [datetime] values are counted in microseconds from [datetime.min];
      JSON numbers are integers.  A body with a float in it is outside the
      model, so the statements about the lifetime of a token take an
      integer [expires_in], or one that is no number at all, as a
      hypothesis.
    - The calls to [logger] are left out.  [response.json()] decodes the
      body or fails as in requests 2.27 and later, with an exception that
      is both a [RequestException] and a [ValueError].  What else the
      decoder can raise (a [RecursionError] on a body nested too deep, a
      [ValueError] on an integer literal over the digit limit) is outside
      the model: the statements about raised exceptions say when a call
      raises, for bodies that decode, and not that it raises nothing
      else. *)

From stdpp Require Import base strings list.
From Stdlib Require Import ZArith Ascii DecimalString Lia.

(** ** Python values and outcomes *)

Module Py.

Inductive Exn : Type :=
| ValueError (msg : string)
| KeyError (key : string)
| IndexError
| TypeError
| AttributeError
| OverflowError
| SystemError
| OSError (msg : string).

Inductive Outcome (A : Type) : Type :=
| Returned (a : A)
| Raised (e : Exn).
Arguments Returned {A} a.
Arguments Raised {A} e.

(** [dict.get(k)] / [k in d] on a dictionary with string keys, kept as an
    association list in insertion order (keys are unique). *)
Fixpoint dict_get {V : Type} (d : list (string * V)) (k : string) : option V :=
  match d with
  | [] => None
  | (k', v) :: d' => if String.eqb k' k then Some v else dict_get d' k
  end.

(** [d[k] = v]: replaces the binding in place, or appends a new one. *)
Fixpoint dict_set {V : Type} (d : list (string * V)) (k : string) (v : V)
  : list (string * V) :=
  match d with
  | [] => [(k, v)]
  | (k', v') :: d' =>
      if String.eqb k' k then (k', v) :: d' else (k', v') :: dict_set d' k v
  end.

Definition dict_keys {V : Type} (d : list (string * V)) : list string :=
  map fst d.

(** [str(n)] for an [int]. *)
Definition str_of_int (n : Z) : string :=
  NilZero.string_of_int (Z.to_int n).

(** [c.lower()] on one ASCII character. *)
Definition lower_ascii (c : ascii) : ascii :=
  let n := N_of_ascii c in
  if ((65 <=? n) && (n <=? 90))%N then ascii_of_N (n + 32) else c.

(** [s.lower()]. *)
Fixpoint lower (s : string) : string :=
  match s with
  | EmptyString => EmptyString
  | String c s' => String (lower_ascii c) (lower s')
  end.

(** [needle in haystack] for strings. *)
Fixpoint contains (needle haystack : string) : bool :=
  if String.prefix needle haystack then true
  else match haystack with
       | EmptyString => false
       | String _ rest => contains needle rest
       end.

End Py.
Export Py.

(** ** config.py *)

Module Config.

Definition loc : Type := nat.

(** A value held in a variable, a dictionary slot or a list cell: an
    immutable scalar, or a reference to a mutable object. *)
Inductive Val : Type :=
| VNone
| VBool (b : bool)
| VInt (n : Z)
| VStr (s : string)
| VRef (l : loc).

Inductive Obj : Type :=
| ODict (d : list (string * Val))
| OList (xs : list Val).

(** The store of objects; a location is an index into it. *)
Abbreviation Heap := (list Obj).

Definition alloc (h : Heap) (o : Obj) : loc * Heap :=
  (length h, h ++ [o]).

(** Truth value of a value, as [if v:] computes it. *)
Definition truthy (h : Heap) (v : Val) : bool :=
  match v with
  | VNone => false
  | VBool b => b
  | VInt n => negb (n =? 0)%Z
  | VStr s => negb (String.eqb s "")
  | VRef l =>
      match h !! l with
      | Some (ODict d) => negb (Nat.eqb (length d) 0)
      | Some (OList xs) => negb (Nat.eqb (length xs) 0)
      | None => true
      end
  end.

(** One field-mapping entry, as the literal of [SAMSUNG_FIELD_MAPPINGS]
    writes them. *)
Record Mapping : Type := mkMapping {
  file1_column : string;
  file2_column : string;
  is_primary_key : bool
}.

Definition mapping_dict (m : Mapping) : list (string * Val) :=
  [("file1_column", VStr (file1_column m));
   ("file2_column", VStr (file2_column m));
   ("is_primary_key", VBool (is_primary_key m))].

(** Evaluation of a list display of entry dictionaries: each entry is
    allocated in order; the references are collected. *)
Fixpoint alloc_entries (h : Heap) (ms : list Mapping) : list Val * Heap :=
  match ms with
  | [] => ([], h)
  | m :: ms' =>
      let (l, h1) := alloc h (ODict (mapping_dict m)) in
      let (vs, h2) := alloc_entries h1 ms' in
      (VRef l :: vs, h2)
  end.

(** Evaluation of [{"mappings": [ ... ]}]: the entries, then the list,
    then the enclosing dictionary. *)
Definition alloc_document (h : Heap) (ms : list Mapping) : loc * Heap :=
  let (vs, h1) := alloc_entries h ms in
  let (ll, h2) := alloc h1 (OList vs) in
  alloc h2 (ODict [("mappings", VRef ll)]).

Definition SAMSUNG_ENTRIES : list Mapping :=
  [ mkMapping "txn_ref_number" "Transaction Reference" true;
    mkMapping "TRANSACTIONAMOUNT" "Paid Amount" false;
    mkMapping "product_amount" "MRP" false;
    mkMapping "PRODUCT_CATEGORY" "PRODUCT_CATEGORY" false;
    mkMapping "Tenure" "Tenure" false;
    mkMapping "RATE_OF_INTEREST____P_A_" "RATE_OF_INTEREST____P_A_" false;
    mkMapping "EMI_AMOUNT" "EMI_AMOUNT" false;
    mkMapping "LOAN_AMOUNT" "LOAN_AMOUNT" false;
    mkMapping "Brand share" "Correct brand share" false;
    mkMapping "Bank share" "Correct bank share" false ].

(** The heap after the module body has run, and the object the global
    name [SAMSUNG_FIELD_MAPPINGS] is bound to. *)
Definition module_heap : Heap := snd (alloc_document [] SAMSUNG_ENTRIES).
Definition SAMSUNG_FIELD_MAPPINGS : loc :=
  Eval cbv in fst (alloc_document [] SAMSUNG_ENTRIES).

(** [obj.copy()]: a new object with the same slots; the values in the
    slots, references included, are shared with the original. *)
Definition copy (h : Heap) (v : Val) : Outcome Val * Heap :=
  match v with
  | VRef l =>
      match h !! l with
      | Some o => let (l', h') := alloc h o in (Returned (VRef l'), h')
      | None => (Raised SystemError, h)
      end
  | _ => (Raised AttributeError, h)
  end.

(** [get_field_mapping_template(template_name)] *)
Definition get_field_mapping_template (h : Heap) (template_name : string)
  : Outcome Val * Heap :=
  let templates := [("samsung", VRef SAMSUNG_FIELD_MAPPINGS)] in
  match dict_get templates (lower template_name) with
  | None =>
      (Raised (ValueError
         ("Unknown template: " +:+ template_name +:+ ". " +:+
          "Available templates: " +:+
          String.concat ", " (dict_keys templates))), h)
  | Some t => copy h t
  end.

(** [d[k]] for a string key. *)
Definition getitem_str (h : Heap) (v : Val) (k : string) : Outcome Val :=
  match v with
  | VRef l =>
      match h !! l with
      | Some (ODict d) =>
          match dict_get d k with
          | Some x => Returned x
          | None => Raised (KeyError k)
          end
      | Some (OList _) => Raised TypeError
      | None => Raised SystemError
      end
  | _ => Raised TypeError
  end.

(** [xs[i]] for an integer index (negative indices count from the end). *)
Definition getitem_int (h : Heap) (v : Val) (i : Z) : Outcome Val :=
  match v with
  | VRef l =>
      match h !! l with
      | Some (OList xs) =>
          let n := Z.of_nat (length xs) in
          let j := if (i <? 0)%Z then (i + n)%Z else i in
          if ((0 <=? j) && (j <? n))%Z then
            match xs !! Z.to_nat j with
            | Some x => Returned x
            | None => Raised IndexError
            end
          else Raised IndexError
      | Some (ODict _) => Raised (KeyError (str_of_int i))
      | None => Raised SystemError
      end
  | _ => Raised TypeError
  end.

(** [d[k] = x] for a string key: mutates the object in place. *)
Definition setitem_str (h : Heap) (v : Val) (k : string) (x : Val)
  : Outcome unit * Heap :=
  match v with
  | VRef l =>
      match h !! l with
      | Some (ODict d) => (Returned tt, <[l := ODict (dict_set d k x)]> h)
      | Some (OList _) => (Raised TypeError, h)
      | None => (Raised SystemError, h)
      end
  | _ => (Raised TypeError, h)
  end.

(** [mapping.get(k)] *)
Definition get_method (h : Heap) (v : Val) (k : string) : Outcome Val :=
  match v with
  | VRef l =>
      match h !! l with
      | Some (ODict d) =>
          Returned (match dict_get d k with Some x => x | None => VNone end)
      | Some (OList _) => Raised AttributeError
      | None => Raised SystemError
      end
  | _ => Raised AttributeError
  end.

(** The characters of a string, as iterating over it yields them. *)
Fixpoint chars (s : string) : list Val :=
  match s with
  | EmptyString => []
  | String c s' => VStr (String c EmptyString) :: chars s'
  end.

(** The items a [for] loop over [v] visits. *)
Definition iterate (h : Heap) (v : Val) : Outcome (list Val) :=
  match v with
  | VRef l =>
      match h !! l with
      | Some (OList xs) => Returned xs
      | Some (ODict d) => Returned (map VStr (dict_keys d))
      | None => Raised SystemError
      end
  | VStr s => Returned (chars s)
  | _ => Raised TypeError
  end.

(** The loop of [get_primary_key_mapping]: the first item whose
    [is_primary_key] is truthy ends it. *)
Fixpoint primary_key_loop (h : Heap) (items : list Val)
  : Outcome (list (string * Val)) :=
  match items with
  | [] => Returned []
  | mapping :: rest =>
      match get_method h mapping "is_primary_key" with
      | Raised e => Raised e
      | Returned flag =>
          if truthy h flag then
            match getitem_str h mapping "file1_column" with
            | Raised e => Raised e
            | Returned c1 =>
                match getitem_str h mapping "file2_column" with
                | Raised e => Raised e
                | Returned c2 =>
                    Returned [("file1_column", c1); ("file2_column", c2)]
                end
            end
          else primary_key_loop h rest
      end
  end.

(** [get_primary_key_mapping(template_name)]; the result is the content
    of the dictionary it builds. *)
Definition get_primary_key_mapping (h : Heap) (template_name : string)
  : Outcome (list (string * Val)) * Heap :=
  match get_field_mapping_template h template_name with
  | (Raised e, h') => (Raised e, h')
  | (Returned template, h') =>
      match getitem_str h' template "mappings" with
      | Raised e => (Raised e, h')
      | Returned ms =>
          match iterate h' ms with
          | Raised e => (Raised e, h')
          | Returned items => (primary_key_loop h' items, h')
          end
      end
  end.

(** *** Reading a document back out of the heap *)

Definition read_mapping (h : Heap) (v : Val) : option Mapping :=
  match v with
  | VRef l =>
      match h !! l with
      | Some (ODict d) =>
          match dict_get d "file1_column", dict_get d "file2_column",
                dict_get d "is_primary_key" with
          | Some (VStr c1), Some (VStr c2), Some (VBool b) =>
              Some (mkMapping c1 c2 b)
          | _, _, _ => None
          end
      | _ => None
      end
  | _ => None
  end.

Fixpoint read_mappings (h : Heap) (vs : list Val) : option (list Mapping) :=
  match vs with
  | [] => Some []
  | v :: vs' =>
      match read_mapping h v, read_mappings h vs' with
      | Some m, Some ms => Some (m :: ms)
      | _, _ => None
      end
  end.

(** The field mappings of the document [v] refers to, when it is a
    dictionary whose ["mappings"] is a list of well-formed entries. *)
Definition read_document (h : Heap) (v : Val) : option (list Mapping) :=
  match getitem_str h v "mappings" with
  | Returned (VRef ll) =>
      match h !! ll with
      | Some (OList vs) => read_mappings h vs
      | _ => None
      end
  | _ => None
  end.

(** What the claim about primary keys expects: the first flagged entry,
    projected to its two column names; the empty dictionary otherwise. *)
Definition first_primary_key (ms : list Mapping) : list (string * Val) :=
  match List.find is_primary_key ms with
  | Some m =>
      [("file1_column", VStr (file1_column m));
       ("file2_column", VStr (file2_column m))]
  | None => []
  end.

End Config.


(** ** recon_api.py *)

Module ReconApi.

#[local] Set Warnings "-register-all".

(** A value decoded from a JSON body ([response.json()]), or built by the
    client for its result dictionaries. *)
Inductive Json : Type :=
| JNone
| JBool (b : bool)
| JInt (n : Z)
| JStr (s : string)
| JList (xs : list Json)
| JDict (d : list (string * Json)).

(** Truth value, as [not v] tests it. *)
Definition truthy (v : Json) : bool :=
  match v with
  | JNone => false
  | JBool b => b
  | JInt n => negb (n =? 0)%Z
  | JStr s => negb (String.eqb s "")
  | JList xs => negb (Nat.eqb (length xs) 0)
  | JDict d => negb (Nat.eqb (length d) 0)
  end.

(** [d.get(k, default)] *)
Definition get_default (d : list (string * Json)) (k : string)
           (default : Json) : Json :=
  match dict_get d k with Some v => v | None => default end.

(** The dictionaries the client returns. *)
Definition Result : Type := list (string * Json).

(** A header value: a literal, or the f-string [f"Bearer {token}"] with
    the interpolated token kept as it is stored. *)
Inductive HeaderVal : Type :=
| HLit (s : string)
| HBearer (tok : Json).

Inductive Method : Type := GET | POST.

(** One entry of [files=]: (file name, opened path, MIME type). *)
Record FilePart : Type := mkFilePart {
  part_filename : string;
  part_path : string;
  part_mime : string
}.

Record Request : Type := mkRequest {
  req_method : Method;
  req_url : string;
  req_headers : list (string * HeaderVal);
  req_data : list (string * string);
  req_files : list (string * FilePart);
  req_json : option Json;
  req_stream : bool;
  req_timeout : Z
}.

(** [response.json()] returns a value or raises
    [requests.exceptions.JSONDecodeError], which is both a
    [RequestException] and a [ValueError]; [JsonFail] stands for that
    exception only. *)
Inductive JsonResult : Type :=
| JsonOk (v : Json)
| JsonFail (msg : string).

Record Response : Type := mkResponse {
  status_code : Z;
  json : JsonResult;
  text : string;
  (** the chunks [iter_content] yields, and the message of the
      [RequestException] that ends the stream early, if any *)
  content_chunks : list string;
  content_error : option string
}.

(** What [requests.post] / [requests.get] does: a response, or a
    [requests.exceptions.RequestException] with message [msg]; some of
    these (an invalid URL, a missing schema) are [ValueError]s as well. *)
Inductive NetReply : Type :=
| Reply (r : Response)
| NetError (msg : string) (is_value_error : bool).

(** What a call can observe of the world around the client. *)
Record Env : Type := mkEnv {
  now : Z;                                  (* datetime.now() *)
  path_exists : string -> bool;             (* os.path.exists *)
  open_error : string -> string -> option string; (* open(path, mode) raising OSError *)
  makedirs_error : string -> option string; (* os.makedirs raising OSError *)
  write_error : string -> string -> option string; (* f.write(chunk) raising OSError *)
  basename : string -> string;              (* os.path.basename *)
  dirname : string -> string;               (* os.path.dirname *)
  abspath : string -> string;               (* os.path.abspath *)
  http : Request -> NetReply
}.

(** The effects a call has on the world, in order. *)
Inductive Event : Type :=
| EvHttp (r : Request)
| EvOpen (path mode : string)
| EvMakedirs (path : string)
| EvWrite (path chunk : string).

(** The client instance, and the effects performed through it so far. *)
Record State : Type := mkState {
  base_url : string;
  token : Json;
  token_expiration : option Z;
  trace : list Event
}.

Definition log (s : State) (ev : Event) : State :=
  mkState (base_url s) (token s) (token_expiration s) (trace s ++ [ev]).

Definition set_token (s : State) (tok : Json) : State :=
  mkState (base_url s) tok (token_expiration s) (trace s).

Definition set_token_expiration (s : State) (t : option Z) : State :=
  mkState (base_url s) (token s) t (trace s).

(** [s.rstrip('/')] *)
Fixpoint rstrip_slash (s : string) : string :=
  match s with
  | EmptyString => EmptyString
  | String c s' =>
      match rstrip_slash s' with
      | EmptyString =>
          if Ascii.eqb c "/" then EmptyString else String c EmptyString
      | r => String c r
      end
  end.

(** [ReconAPIClient.__init__] *)
Definition init (url : string) : State :=
  mkState (rstrip_slash url) JNone None [].

(** [ReconAPIClient._is_token_valid] *)
Definition is_token_valid (e : Env) (s : State) : bool :=
  match negb (truthy (token s)), token_expiration s with
  | true, _ => false
  | false, None => false
  | false, Some expiration =>
      if (now e >=? expiration)%Z then false else true
  end.

(** *** [datetime] arithmetic, in microseconds from [datetime.min] *)

Definition DATETIME_MAX : Z := 3652059 * 86400 * 1000000 - 1.

(** [timedelta(seconds=n)] *)
Definition timedelta_seconds (n : Z) : Outcome Z :=
  if (Z.abs (n / 86400) <=? 999999999)%Z then Returned (n * 1000000)%Z
  else Raised OverflowError.

(** [t + delta] *)
Definition datetime_add (t delta : Z) : Outcome Z :=
  let r := (t + delta)%Z in
  if ((0 <=? r) && (r <=? DATETIME_MAX))%Z then Returned r
  else Raised OverflowError.

(** [v - k] for an [int] [k], on the values of [Json]; [bool] is a
    subclass of [int].  Python also subtracts from a [float], which [Json]
    does not have. *)
Definition sub_int (v : Json) (k : Z) : Outcome Z :=
  match v with
  | JInt n => Returned (n - k)%Z
  | JBool b => Returned ((if b then 1 else 0) - k)%Z
  | _ => Raised TypeError
  end.

(** [datetime.now() + timedelta(seconds=expires_in - 60)] *)
Definition expiration_of (e : Env) (expires_in : Json) : Outcome Z :=
  match sub_int expires_in 60 with
  | Raised ex => Raised ex
  | Returned secs =>
      match timedelta_seconds secs with
      | Raised ex => Raised ex
      | Returned delta => datetime_add (now e) delta
      end
  end.

(** The two-key dictionary of a failure. *)
Definition failure (msg : string) : Result :=
  [("success", JBool false); ("error", JStr msg)].

(** The [else] branch every method shares: the status in the message, the
    body as [detail], parsed when it parses and as text otherwise. *)
Definition error_detail (response : Response) : Json :=
  match json response with
  | JsonOk v => v
  | JsonFail _ => JStr (text response)
  end.

Definition status_failure (what : string) (response : Response) : Result :=
  [("success", JBool false);
   ("error", JStr (what +:+ " failed with status " +:+
                   str_of_int (status_code response)));
   ("detail", error_detail response)].

Definition login_request (s : State) (username password : string) : Request :=
  mkRequest POST (base_url s +:+ "/auth/login")
    [("Content-Type", HLit "application/x-www-form-urlencoded")]
    [("username", username); ("password", password)]
    [] None false 30.

(** [ReconAPIClient.authenticate] *)
Definition authenticate (e : Env) (s : State) (username password : string)
  : Outcome Result * State :=
  let req := login_request s username password in
  let s := log s (EvHttp req) in
  match http e req with
  | NetError msg _ =>
      (Returned (failure ("Network error during authentication: " +:+ msg)), s)
  | Reply response =>
      if (status_code response =? 200)%Z then
        match json response with
        | JsonFail msg =>
            (Returned (failure ("Network error during authentication: " +:+ msg)), s)
        | JsonOk (JDict result) =>
            let s := set_token s (get_default result "access_token" JNone) in
            let expires_in := get_default result "expires_in" (JInt 3600) in
            match expiration_of e expires_in with
            | Raised ex => (Raised ex, s)
            | Returned expiration =>
                let s := set_token_expiration s (Some expiration) in
                (Returned
                   [("success", JBool true);
                    ("access_token", token s);
                    ("token_type", get_default result "token_type" (JStr "Bearer"));
                    ("expires_in", expires_in)], s)
            end
        | JsonOk _ => (Raised AttributeError, s)
        end
      else
        (Returned (status_failure "Authentication" response), s)
  end.

Definition NO_TOKEN : string :=
  "No valid authentication token. Please authenticate first.".

(** [ReconAPIClient._get_auth_headers] *)
Definition get_auth_headers (e : Env) (s : State)
  : Outcome (list (string * HeaderVal)) :=
  if negb (is_token_valid e s) then Raised (ValueError NO_TOKEN)
  else Returned [("Authorization", HBearer (token s))].

Definition XLSX : string :=
  "application/vnd.openxmlformats-officedocument.spreadsheetml.sheet".

Definition file_parts (e : Env) (file1_path file2_path : string)
  : list (string * FilePart) :=
  [("file1", mkFilePart (basename e file1_path) file1_path XLSX);
   ("file2", mkFilePart (basename e file2_path) file2_path XLSX)].

Definition upload_request (e : Env) (s : State)
           (headers : list (string * HeaderVal))
           (file1_path file2_path config_name : string) : Request :=
  mkRequest POST (base_url s +:+ "/workspaces/upload") headers
    [("config_name", config_name)]
    (file_parts e file1_path file2_path) None false 120.

(** The part of [upload_files] and [run_reconciliation] from the [try]
    on: the headers, the two files opened in turn, the request, and the
    reading of the response.  [what] and [net_what] name the step in the
    messages and [on_ok] builds the result from the decoded body. *)
Definition send_files (e : Env) (s : State) (file1_path file2_path : string)
           (mk_request : list (string * HeaderVal) -> Request)
           (what net_what : string)
           (on_ok : list (string * Json) -> Result)
  : Outcome Result * State :=
  match get_auth_headers e s with
  | Raised (ValueError msg) => (Returned (failure msg), s)
  | Raised ex => (Raised ex, s)
  | Returned headers =>
      let s := log s (EvOpen file1_path "rb") in
      match open_error e file1_path "rb" with
      | Some msg => (Raised (OSError msg), s)
      | None =>
          let s := log s (EvOpen file2_path "rb") in
          match open_error e file2_path "rb" with
          | Some msg => (Raised (OSError msg), s)
          | None =>
              let req := mk_request headers in
              let s := log s (EvHttp req) in
              match http e req with
              | NetError msg is_value_error =>
                  (Returned (failure (if is_value_error then msg
                                      else "Network error during " +:+ net_what
                                      +:+ ": " +:+ msg)), s)
              | Reply response =>
                  if ((status_code response =? 200) ||
                      (status_code response =? 201))%Z then
                    match json response with
                    | JsonFail msg => (Returned (failure msg), s)
                    | JsonOk (JDict result) => (Returned (on_ok result), s)
                    | JsonOk _ => (Raised AttributeError, s)
                    end
                  else (Returned (status_failure what response), s)
              end
          end
      end
  end.

(** [ReconAPIClient.upload_files] *)
Definition upload_files (e : Env) (s : State)
           (file1_path file2_path config_name : string)
  : Outcome Result * State :=
  if negb (path_exists e file1_path) then
    (Returned (failure ("File not found: " +:+ file1_path)), s)
  else if negb (path_exists e file2_path) then
    (Returned (failure ("File not found: " +:+ file2_path)), s)
  else
    send_files e s file1_path file2_path
      (fun headers =>
         upload_request e s headers file1_path file2_path config_name)
      "Upload" "upload"
      (fun result =>
         [("success", JBool true);
          ("workspace_id", get_default result "workspace_id" JNone);
          ("config_id", get_default result "config_id" JNone);
          ("message", get_default result "message"
                        (JStr "Files uploaded successfully"))]).

Definition mapping_request (s : State) (headers : list (string * HeaderVal))
           (workspace_id config_id : string) (mappings : Json) : Request :=
  mkRequest POST
    (base_url s +:+ "/field-mapping/" +:+ workspace_id +:+ "/" +:+ config_id)
    headers [] [] (Some mappings) false 30.

(** [ReconAPIClient.set_field_mapping] *)
Definition set_field_mapping (e : Env) (s : State)
           (workspace_id config_id : string) (mappings : Json)
  : Outcome Result * State :=
  match get_auth_headers e s with
  | Raised (ValueError msg) => (Returned (failure msg), s)
  | Raised ex => (Raised ex, s)
  | Returned headers =>
      let headers := dict_set headers "Content-Type" (HLit "application/json") in
      let req := mapping_request s headers workspace_id config_id mappings in
      let s := log s (EvHttp req) in
      match http e req with
      | NetError msg is_value_error =>
          (Returned (failure (if is_value_error then msg
                              else "Network error during field mapping: " +:+ msg)), s)
      | Reply response =>
          if ((status_code response =? 200) ||
              (status_code response =? 201))%Z then
            match json response with
            | JsonFail msg => (Returned (failure msg), s)
            | JsonOk (JDict result) =>
                (Returned
                   [("success", JBool true);
                    ("message", get_default result "message"
                       (JStr "Field mappings configured successfully"))], s)
            | JsonOk _ => (Raised AttributeError, s)
            end
          else (Returned (status_failure "Field mapping" response), s)
      end
  end.

Definition run_request (e : Env) (s : State)
           (headers : list (string * HeaderVal))
           (config_id file1_path file2_path : string) : Request :=
  mkRequest POST (base_url s +:+ "/auto-recon/" +:+ config_id) headers
    [] (file_parts e file1_path file2_path) None false 120.

(** [ReconAPIClient.run_reconciliation] *)
Definition run_reconciliation (e : Env) (s : State)
           (config_id file1_path file2_path : string)
  : Outcome Result * State :=
  if negb (path_exists e file1_path) then
    (Returned (failure ("File not found: " +:+ file1_path)), s)
  else if negb (path_exists e file2_path) then
    (Returned (failure ("File not found: " +:+ file2_path)), s)
  else
    send_files e s file1_path file2_path
      (fun headers =>
         run_request e s headers config_id file1_path file2_path)
      "Reconciliation" "reconciliation"
      (fun result =>
         [("success", JBool true);
          ("workspace_id", get_default result "workspace_id" JNone);
          ("message", get_default result "message"
                        (JStr "Reconciliation started successfully"))]).

Definition status_request (s : State) (headers : list (string * HeaderVal))
           (workspace_id : string) : Request :=
  mkRequest GET (base_url s +:+ "/workspaces/" +:+ workspace_id +:+ "/status")
    headers [] [] None false 30.

(** [ReconAPIClient.check_status] *)
Definition check_status (e : Env) (s : State) (workspace_id : string)
  : Outcome Result * State :=
  match get_auth_headers e s with
  | Raised (ValueError msg) => (Returned (failure msg), s)
  | Raised ex => (Raised ex, s)
  | Returned headers =>
      let req := status_request s headers workspace_id in
      let s := log s (EvHttp req) in
      match http e req with
      | NetError msg is_value_error =>
          (Returned (failure (if is_value_error then msg
                              else "Network error during status check: " +:+ msg)), s)
      | Reply response =>
          if (status_code response =? 200)%Z then
            match json response with
            | JsonFail msg => (Returned (failure msg), s)
            | JsonOk (JDict result) =>
                let status := get_default result "status" (JStr "unknown") in
                let progress := get_default result "progress" (JInt 0) in
                (Returned
                   [("success", JBool true);
                    ("status", status);
                    ("progress", progress);
                    ("message", get_default result "message" (JStr ""))], s)
            | JsonOk _ => (Raised AttributeError, s)
            end
          else (Returned (status_failure "Status check" response), s)
      end
  end.

Definition download_request (s : State) (headers : list (string * HeaderVal))
           (workspace_id : string) : Request :=
  mkRequest GET (base_url s +:+ "/workspaces/" +:+ workspace_id +:+ "/download")
    headers [] [] None true 120.

(** The loop [for chunk in response.iter_content(...): if chunk:
    f.write(chunk)]: the bytes written so far, or the message of the
    [OSError] a write raised. *)
Fixpoint write_chunks (e : Env) (s : State) (output_path : string)
         (chunks : list string) (written : nat) : (string + nat) * State :=
  match chunks with
  | [] => (inr written, s)
  | chunk :: rest =>
      if negb (String.eqb chunk "") then
        let s := log s (EvWrite output_path chunk) in
        match write_error e output_path chunk with
        | Some msg => (inl msg, s)
        | None =>
            write_chunks e s output_path rest (written + String.length chunk)
        end
      else write_chunks e s output_path rest written
  end.

(** [ReconAPIClient.download_results] *)
Definition download_results (e : Env) (s : State)
           (workspace_id output_path : string)
  : Outcome Result * State :=
  match get_auth_headers e s with
  | Raised (ValueError msg) => (Returned (failure msg), s)
  | Raised ex => (Raised ex, s)
  | Returned headers =>
      let output_dir := dirname e output_path in
      let made :=
        if negb (String.eqb output_dir "") && negb (path_exists e output_dir)
        then (log s (EvMakedirs output_dir), makedirs_error e output_dir)
        else (s, None) in
      match made with
      | (s, Some msg) => (Returned (failure ("File I/O error: " +:+ msg)), s)
      | (s, None) =>
          let req := download_request s headers workspace_id in
          let s := log s (EvHttp req) in
          match http e req with
          | NetError msg is_value_error =>
              (Returned (failure (if is_value_error then msg
                                  else "Network error during download: " +:+ msg)), s)
          | Reply response =>
              if (status_code response =? 200)%Z then
                let s := log s (EvOpen output_path "wb") in
                match open_error e output_path "wb" with
                | Some msg =>
                    (Returned (failure ("File I/O error: " +:+ msg)), s)
                | None =>
                    match write_chunks e s output_path
                            (content_chunks response) 0 with
                    | (inl msg, s) =>
                        (Returned (failure ("File I/O error: " +:+ msg)), s)
                    | (inr file_size, s) =>
                        match content_error response with
                        | Some msg =>
                            (Returned (failure
                               ("Network error during download: " +:+ msg)), s)
                        | None =>
                            (Returned
                               [("success", JBool true);
                                ("file_path", JStr (abspath e output_path));
                                ("file_size", JInt (Z.of_nat file_size))], s)
                        end
                    end
                end
              else (Returned (status_failure "Download" response), s)
          end
      end
  end.

(** The five operations that need a token, as one type, so that a
    property can be stated for all of them at once. *)
Inductive Call : Type :=
| UploadFiles (file1_path file2_path config_name : string)
| SetFieldMapping (workspace_id config_id : string) (mappings : Json)
| RunReconciliation (config_id file1_path file2_path : string)
| CheckStatus (workspace_id : string)
| DownloadResults (workspace_id output_path : string).

Definition run (e : Env) (s : State) (c : Call) : Outcome Result * State :=
  match c with
  | UploadFiles f1 f2 n => upload_files e s f1 f2 n
  | SetFieldMapping w c m => set_field_mapping e s w c m
  | RunReconciliation c f1 f2 => run_reconciliation e s c f1 f2
  | CheckStatus w => check_status e s w
  | DownloadResults w o => download_results e s w o
  end.

(** A sequence of calls, each in the environment it finds; the outcomes
    in order and the final state. *)
Fixpoint run_all (s : State) (script : list (Env * Call))
  : list (Outcome Result) * State :=
  match script with
  | [] => ([], s)
  | (e, c) :: rest =>
      let (o, s1) := run e s c in
      let (os, s2) := run_all s1 rest in
      (o :: os, s2)
  end.

End ReconApi.

(** ** Definitions used to state the properties *)

Module Scenario.
Import Config.

(** A caller takes the template and clears the flag of its first entry:
    [t = get_field_mapping_template("samsung");
     t["mappings"][0]["is_primary_key"] = False]. *)
Definition clear_first_flag (h : Heap) : Outcome unit * Heap :=
  match get_field_mapping_template h "samsung" with
  | (Raised e, h1) => (Raised e, h1)
  | (Returned t, h1) =>
      match getitem_str h1 t "mappings" with
      | Raised e => (Raised e, h1)
      | Returned ms =>
          match getitem_int h1 ms 0 with
          | Raised e => (Raised e, h1)
          | Returned m => setitem_str h1 m "is_primary_key" (VBool false)
          end
      end
  end.

(** A caller rebinds a key of the dictionary it was handed:
    [t = get_field_mapping_template("samsung"); t[k] = x]. *)
Definition rebind_key (h : Heap) (k : string) (x : Val) : Outcome unit * Heap :=
  match get_field_mapping_template h "samsung" with
  | (Raised e, h1) => (Raised e, h1)
  | (Returned t, h1) => setitem_str h1 t k x
  end.

End Scenario.

Module Session.
Import ReconApi.

(** The number of seconds an [expires_in] value stands for. *)
Definition int_value (v : Json) : option Z :=
  match v with
  | JInt n => Some n
  | JBool b => Some (if b then 1 else 0)%Z
  | _ => None
  end.

(** The JSON values Python does not count as numbers: [v - 60] raises
    [TypeError] on each of them. *)
Definition not_a_number (v : Json) : bool :=
  match v with
  | JNone | JStr _ | JList _ | JDict _ => true
  | JBool _ | JInt _ => false
  end.

(** The first of the two paths of an upload or a run that is not on disk. *)
Definition missing_path (e : Env) (c : Call) : option string :=
  match c with
  | UploadFiles f1 f2 _ | RunReconciliation _ f1 f2 =>
      if path_exists e f1 then
        if path_exists e f2 then None else Some f2
      else Some f1
  | _ => None
  end.

(** The message a call is turned away with when there is no valid token. *)
Definition denial (e : Env) (c : Call) : string :=
  match missing_path e c with
  | Some p => "File not found: " +:+ p
  | None => NO_TOKEN
  end.

(** The headers a call sends once the token has been found valid. *)
Definition headers_of (s : State) (c : Call) : list (string * HeaderVal) :=
  match c with
  | SetFieldMapping _ _ _ =>
      [("Authorization", HBearer (token s));
       ("Content-Type", HLit "application/json")]
  | _ => [("Authorization", HBearer (token s))]
  end.

(** The request a call sends. *)
Definition request_of (e : Env) (s : State) (c : Call) : Request :=
  match c with
  | UploadFiles f1 f2 n => upload_request e s (headers_of s c) f1 f2 n
  | SetFieldMapping w cid m => mapping_request s (headers_of s c) w cid m
  | RunReconciliation cid f1 f2 => run_request e s (headers_of s c) cid f1 f2
  | CheckStatus w => status_request s (headers_of s c) w
  | DownloadResults w _ => download_request s (headers_of s c) w
  end.

(** Nothing local stands between the call and its request: the token is
    valid, the files of an upload or a run exist and open, the directory
    of a download exists or can be made. *)
Definition reaches_server (e : Env) (s : State) (c : Call) : bool :=
  is_token_valid e s &&
  match c with
  | UploadFiles f1 f2 _ | RunReconciliation _ f1 f2 =>
      path_exists e f1 && path_exists e f2 &&
      negb (bool_decide (is_Some (open_error e f1 "rb"))) &&
      negb (bool_decide (is_Some (open_error e f2 "rb")))
  | DownloadResults _ o =>
      String.eqb (dirname e o) "" || path_exists e (dirname e o) ||
      negb (bool_decide (is_Some (makedirs_error e (dirname e o))))
  | _ => true
  end.

(** How each call names itself in the message of a rejected request. *)
Definition step_name (c : Call) : string :=
  match c with
  | UploadFiles _ _ _ => "Upload"
  | SetFieldMapping _ _ _ => "Field mapping"
  | RunReconciliation _ _ _ => "Reconciliation"
  | CheckStatus _ => "Status check"
  | DownloadResults _ _ => "Download"
  end.

(** The requests among a list of effects. *)
Definition requests (evs : list Event) : list Request :=
  omap (fun ev => match ev with EvHttp r => Some r | _ => None end) evs.

(** [s'] is [s] after the effects [evs]: the same client, a longer trace. *)
Definition extends (s s' : State) (evs : list Event) : Prop :=
  base_url s' = base_url s /\ token s' = token s /\
  token_expiration s' = token_expiration s /\ trace s' = trace s ++ evs.

(** *** Concrete worlds *)

(** A world at clock [t] in which exactly the paths [files] exist, every
    file opens and every request gets the same [reply]. *)
Definition world (t : Z) (files : list string) (reply : NetReply) : Env :=
  mkEnv t (fun p => existsb (String.eqb p) files)
    (fun _ _ => None) (fun _ => None) (fun _ _ => None)
    (fun p => p) (fun _ => "") (fun p => p)
    (fun _ => reply).

Definition ok (body : Json) : NetReply :=
  Reply (mkResponse 200 (JsonOk body) "" [] None).

Definition rejected (status : Z) (body : string) : NetReply :=
  Reply (mkResponse status (JsonFail "Expecting value") body [] None).

(** 2026-01-01 00:00:00, in microseconds from [datetime.min]. *)
Definition NEW_YEAR : Z := (739617 - 1) * 86400 * 1000000.

Definition fresh_client : State := init "https://recon.benow.in/api/recon/".

(** A login answered with a token good for an hour, and one answered with
    HTTP 200 and a body that carries a lifetime but no token. *)
Definition good_login : Env :=
  world NEW_YEAR ["a.xlsx"; "b.xlsx"]
    (ok (JDict [("access_token", JStr "tok-1"); ("token_type", JStr "bearer");
                ("expires_in", JInt 3600)])).


Definition empty_login : Env := world NEW_YEAR ["b.xlsx"] (ok (JDict [])).

Definition unauthorized : Env :=
  world NEW_YEAR ["a.xlsx"; "b.xlsx"] (rejected 401 "token expired").

Definition logged_in : State :=
  snd (authenticate good_login fresh_client "user@example.com" "secret").

End Session.

(** ** config.py: settings and their validation *)

Module Settings.

(** [s * n] for a string [s]. *)
Fixpoint repeat_string (s : string) (n : nat) : string :=
  match n with
  | O => ""
  | S n' => s +:+ repeat_string s n'
  end.

(** The line feed of ["\n"]. *)
Definition NL : string := String "010"%char "".

(** [str(b)] for a [bool]. *)
Definition str_of_bool (b : bool) : string := if b then "True" else "False".

(** [os.getenv(name, default)] on the environment [load_dotenv] leaves. *)
Definition getenv (environ : list (string * string)) (name default : string)
  : string :=
  match dict_get environ name with Some v => v | None => default end.

(** The module-level settings. *)
Record Globals : Type := mkGlobals {
  API_BASE_URL : string;
  USERNAME : string;
  PASSWORD : string;
  DEBUG : bool
}.

(** The four assignments at the top of the module. *)
Definition load (environ : list (string * string)) : Globals :=
  mkGlobals
    (getenv environ "RECON_API_BASE_URL" "https://recon.benow.in/api/recon")
    (getenv environ "RECON_USERNAME" "")
    (getenv environ "RECON_PASSWORD" "")
    (String.eqb (lower (getenv environ "DEBUG" "false")) "true").

(** [bool(s)] / [not s] for a string. *)
Definition nonempty (s : string) : bool := negb (String.eqb s "").

(** The dictionary under ["config"] and the one [validate_config]
    returns; their keys are fixed, so they are records. *)
Record Summary : Type := mkSummary {
  api_base_url : string;
  username_set : bool;
  password_set : bool;
  debug_mode : bool
}.

Record Validation : Type := mkValidation {
  valid : bool;
  errors : list string;
  warnings : list string;
  config : Summary
}.

(** [validate_config()]; [dotenv_exists] is [os.path.exists(".env")]. *)
Definition validate_config (g : Globals) (dotenv_exists : bool) : Validation :=
  let errors := [] in
  let warnings := [] in
  let errors :=
    if negb (nonempty (API_BASE_URL g)) then
      errors ++ ["RECON_API_BASE_URL is not set"]
    else if negb (String.prefix "http://" (API_BASE_URL g) ||
                  String.prefix "https://" (API_BASE_URL g)) then
      errors ++ ["RECON_API_BASE_URL must start with http:// or https://"]
    else errors in
  let warnings :=
    if negb (nonempty (USERNAME g)) then
      warnings ++ ["RECON_USERNAME is not set - authentication will require credentials at runtime"]
    else warnings in
  let warnings :=
    if negb (nonempty (PASSWORD g)) then
      warnings ++ ["RECON_PASSWORD is not set - authentication will require credentials at runtime"]
    else warnings in
  let warnings :=
    if negb dotenv_exists &&
       (negb (nonempty (USERNAME g)) || negb (nonempty (PASSWORD g))) then
      warnings ++ [".env file not found - consider copying .env.example and configuring credentials"]
    else warnings in
  mkValidation (Nat.eqb (length errors) 0) errors warnings
    (mkSummary (API_BASE_URL g) (nonempty (USERNAME g))
       (nonempty (PASSWORD g)) (DEBUG g)).

(** [print_config_status()]: the strings handed to [print], in order. *)
Definition print_config_status (g : Globals) (dotenv_exists : bool)
  : list string :=
  let result := validate_config g dotenv_exists in
  [repeat_string "=" 60;
   "Recon MCP Server - Configuration Status";
   repeat_string "=" 60] ++
  [if valid result then "Status: VALID" else "Status: INVALID"] ++
  [NL +:+ "API Base URL: " +:+ api_base_url (config result);
   "Username Set: " +:+ str_of_bool (username_set (config result));
   "Password Set: " +:+ str_of_bool (password_set (config result));
   "Debug Mode: " +:+ str_of_bool (debug_mode (config result))] ++
  (if negb (Nat.eqb (length (errors result)) 0) then
     (NL +:+ "ERRORS:") :: map (fun error => "  - " +:+ error) (errors result)
   else []) ++
  (if negb (Nat.eqb (length (warnings result)) 0) then
     (NL +:+ "WARNINGS:") :: map (fun warning => "  - " +:+ warning) (warnings result)
   else []) ++
  [repeat_string "=" 60].

End Settings.

(** ** main.py of the recon server *)

Module Server.
Import Config ReconApi Settings.

(** What [requests] makes of a [json=] argument that lives in the heap:
    the tree [json.dumps] walks.  There is none when the walk meets the
    same object again below itself; [fuel] bounds the depth. *)
Fixpoint to_json (fuel : nat) (h : Heap) (v : Val) : option Json :=
  match v with
  | VNone => Some JNone
  | VBool b => Some (JBool b)
  | VInt n => Some (JInt n)
  | VStr s => Some (JStr s)
  | VRef l =>
      match fuel with
      | O => None
      | S fuel' =>
          match h !! l with
          | Some (ODict d) =>
              JDict <$> mapM (fun kv => pair kv.1 <$> to_json fuel' h kv.2) d
          | Some (OList xs) => JList <$> mapM (to_json fuel' h) xs
          | None => None
          end
      end
  end.

(** [api_client = ReconAPIClient(API_BASE_URL)] *)
Definition api_client (g : Globals) : State := init (API_BASE_URL g).

(** The tool [set_field_mapping].  A template that cannot be serialised
    makes [requests.post] raise before anything is sent, which the client
    reports as a network error. *)
Definition set_field_mapping (e : Env) (h : Heap) (s : State)
           (workspace_id config_id : string)
           (use_samsung_template : bool) (custom_mappings : option Json)
  : Outcome Result * Heap * State :=
  if use_samsung_template then
    match get_field_mapping_template h "samsung" with
    | (Raised ex, h) => (Raised ex, h, s)
    | (Returned mappings, h) =>
        match to_json (S (length h)) h mappings with
        | Some body =>
            let (o, s) :=
              ReconApi.set_field_mapping e s workspace_id config_id body in
            (o, h, s)
        | None =>
            match get_auth_headers e s with
            | Raised (ValueError msg) => (Returned (failure msg), h, s)
            | Raised ex => (Raised ex, h, s)
            | Returned _ =>
                (Returned (failure ("Network error during field mapping: " +:+
                                    "Circular reference detected")), h, s)
            end
        end
    end
  else
    match custom_mappings with
    | None =>
        (Returned (failure
           "custom_mappings must be provided when use_samsung_template is False"),
         h, s)
    | Some mappings =>
        let (o, s) :=
          ReconApi.set_field_mapping e s workspace_id config_id mappings in
        (o, h, s)
    end.

(** What [print] is given: a string, or an f-string around a value. *)
Inductive Printed : Type :=
| Text (s : string)
| Fmt (before : string) (v : Json) (after : string).

(** The block under [if __name__ == "__main__"], up to [mcp.run]. *)
Definition main (g : Globals) (dotenv_exists : bool) (e : Env)
  : Outcome unit * State * list Printed :=
  let s := api_client g in
  let out :=
    [Text (NL +:+ repeat_string "=" 70);
     Text "Recon MCP Server Starting...";
     Text (repeat_string "=" 70 +:+ NL)] in
  let config_status := validate_config g dotenv_exists in
  let out := out ++ map Text (print_config_status g dotenv_exists) in
  let out :=
    if negb (valid config_status) then
      out ++ [Text (NL +:+ "WARNING: Configuration has errors. Please fix them before using the server.");
              Text ("See .env.example for configuration template." +:+ NL)]
    else out in
  let out :=
    if negb (Nat.eqb (length (warnings config_status)) 0) then
      out ++ [Text (NL +:+ "Note: Some warnings were detected, but the server will start.");
              Text ("You can provide credentials at runtime using the authenticate tool." +:+ NL)]
    else out in
  let banner :=
    [Text (repeat_string "=" 70);
     Text "Starting MCP server on stdio transport...";
     Text "Available tools: authenticate, upload_files, set_field_mapping,";
     Text "                 run_reconciliation, check_reconciliation_status,";
     Text "                 download_results";
     Text (repeat_string "=" 70 +:+ NL)] in
  if nonempty (USERNAME g) && nonempty (PASSWORD g) then
    let out :=
      out ++ [Text (NL +:+ "Attempting automatic authentication with credentials from .env file...")] in
    match authenticate e s (USERNAME g) (PASSWORD g) with
    | (Raised ex, s) => (Raised ex, s, out)
    | (Returned auth_result, s) =>
        match dict_get auth_result "success" with
        | None => (Raised (KeyError "success"), s, out)
        | Some success =>
            if ReconApi.truthy success then
              let out := out ++ [Text "SUCCESS: Automatic authentication completed!"] in
              match dict_get auth_result "expires_in" with
              | None => (Raised (KeyError "expires_in"), s, out)
              | Some expires_in =>
                  (Returned tt, s,
                   out ++ [Fmt "Token will expire in " expires_in
                               (" seconds." +:+ NL)] ++ banner)
              end
            else
              (Returned tt, s,
               out ++ [Fmt "FAILED: Automatic authentication failed: "
                           (get_default auth_result "error" JNone) "";
                       Text ("You will need to authenticate manually using the authenticate tool." +:+ NL)]
                   ++ banner)
        end
    end
  else (Returned tt, s, out ++ banner).

End Server.

(** ** Further definitions used to state properties *)

Module Cover.
Import ReconApi Session.

(** The last character of a string. *)
Fixpoint last_char (s : string) : option ascii :=
  match s with
  | EmptyString => None
  | String c EmptyString => Some c
  | String _ s' => last_char s'
  end.

(** The status codes a call takes for success. *)
Definition accepted (c : Call) (status : Z) : bool :=
  match c with
  | CheckStatus _ | DownloadResults _ _ => (status =? 200)%Z
  | _ => ((status =? 200) || (status =? 201))%Z
  end.


(** The keys of the dictionary a call returns on success. *)
Definition success_keys (c : Call) : list string :=
  match c with
  | UploadFiles _ _ _ => ["success"; "workspace_id"; "config_id"; "message"]
  | SetFieldMapping _ _ _ => ["success"; "message"]
  | RunReconciliation _ _ _ => ["success"; "workspace_id"; "message"]
  | CheckStatus _ => ["success"; "status"; "progress"; "message"]
  | DownloadResults _ _ => ["success"; "file_path"; "file_size"]
  end.

(** The shapes a returned dictionary can have. *)
Definition is_failure (r : Result) : Prop :=
  (exists msg, r = [("success", JBool false); ("error", JStr msg)]) \/
  (exists msg detail,
     r = [("success", JBool false); ("error", JStr msg); ("detail", detail)]).

(** The chunks of a stream that are written, and their size in bytes. *)
Definition written_chunks (chunks : list string) : list string :=
  filter (fun chunk => chunk <> "") chunks.

Definition total_length (chunks : list string) : nat :=
  foldr (fun chunk n => String.length chunk + n) 0 chunks.

(** The directory a download has to make, if any. *)
Definition directory_to_make (e : Env) (output_path : string) : option string :=
  if negb (String.eqb (dirname e output_path) "") &&
     negb (path_exists e (dirname e output_path))
  then Some (dirname e output_path) else None.

(** A JSON value that is an object. *)
Definition is_object (v : Json) : bool :=
  match v with JDict _ => true | _ => false end.

(** The JSON form of a field mapping and of a document of them. *)
Definition mapping_json (m : Config.Mapping) : Json :=
  JDict [("file1_column", JStr (Config.file1_column m));
         ("file2_column", JStr (Config.file2_column m));
         ("is_primary_key", JBool (Config.is_primary_key m))].

Definition document_json (ms : list Config.Mapping) : Json :=
  JDict [("mappings", JList (map mapping_json ms))].

(** A second world: the server answers every request with [reply]; the
    directory "out" does not exist and cannot be made when [stuck]. *)
Definition world_with_dirs (t : Z) (files : list string) (stuck : bool)
           (reply : NetReply) : Env :=
  mkEnv t (fun p => existsb (String.eqb p) files)
    (fun _ _ => None)
    (fun _ => if stuck then Some "Permission denied" else None)
    (fun _ _ => None)
    (fun p => p)
    (fun p => if String.prefix "out/" p then "out" else "")
    (fun p => "/srv/" +:+ p)
    (fun _ => reply).

(** The state after the effects [evs]. *)
Definition log_all (s : State) (evs : list Event) : State :=
  mkState (base_url s) (token s) (token_expiration s) (trace s ++ evs).

(** The effects of making the directory of a download, when it has to be
    made. *)
Definition directory_events (e : Env) (output_path : string) : list Event :=
  match directory_to_make e output_path with
  | Some d => [EvMakedirs d]
  | None => []
  end.

(** The JSON form of the content of one heap object, its parts read with
    [fuel]. *)
Definition object_json (fuel : nat) (h : Config.Heap) (o : Config.Obj)
  : option Json :=
  match o with
  | Config.ODict d =>
      JDict <$> mapM (fun kv => pair kv.1 <$> Server.to_json fuel h kv.2) d
  | Config.OList xs => JList <$> mapM (Server.to_json fuel h) xs
  end.

(** A login answered with a token under a lifetime that is a string. *)
Definition lifetime_as_text : Env :=
  world NEW_YEAR []
    (ok (JDict [("access_token", JStr "tok-2"); ("expires_in", JStr "3600")])).

(** The dictionaries a list of references leads to, when each of them
    refers to a dictionary. *)
Fixpoint entry_dicts (h : Config.Heap) (vs : list Config.Val)
  : option (list (list (string * Config.Val))) :=
  match vs with
  | [] => Some []
  | Config.VRef l :: vs' =>
      match h !! l, entry_dicts h vs' with
      | Some (Config.ODict d), Some ds => Some (d :: ds)
      | _, _ => None
      end
  | _ :: _ => None
  end.

(** Whether an entry counts as the primary key: its [is_primary_key], or
    [None] when it has none, is truthy. *)
Definition flagged (h : Config.Heap) (d : list (string * Config.Val)) : bool :=
  Config.truthy h
    (match dict_get d "is_primary_key" with Some x => x | None => Config.VNone end).

End Cover.

(** ** Properties of config.py *)

Section ConfigFacts.
Import Config.

Lemma lookup_extend (h h2 : Heap) (l : loc) (o : Obj) :
  h !! l = Some o -> (h ++ h2) !! l = Some o.
Proof. intros H. by apply lookup_app_l_Some. Qed.

Lemma read_mapping_extend (h h2 : Heap) (v : Val) (m : Mapping) :
  read_mapping h v = Some m -> read_mapping (h ++ h2) v = Some m.
Proof.
  destruct v as [| | | |l]; simpl; try discriminate.
  destruct (h !! l) as [o|] eqn:E; [|discriminate].
  rewrite (lookup_extend _ h2 _ _ E). done.
Qed.

Lemma read_mappings_extend (h h2 : Heap) (vs : list Val) :
  forall ms, read_mappings h vs = Some ms ->
             read_mappings (h ++ h2) vs = Some ms.
Proof.
  induction vs as [|v vs IH]; intros ms; simpl; [done|].
  destruct (read_mapping h v) as [m|] eqn:Em; [|discriminate].
  destruct (read_mappings h vs) as [ms'|] eqn:Ems; [|discriminate].
  intros [= <-].
  by rewrite (read_mapping_extend _ h2 _ _ Em), (IH _ eq_refl).
Qed.

(** A document that reads as [ms] is a dictionary whose ["mappings"]
    refers to a list of entries reading as [ms]. *)
Lemma read_document_inv (h : Heap) (l : loc) (ms : list Mapping) :
  read_document h (VRef l) = Some ms ->
  exists d ll vs,
    h !! l = Some (ODict d) /\ dict_get d "mappings" = Some (VRef ll) /\
    h !! ll = Some (OList vs) /\ read_mappings h vs = Some ms.
Proof.
  unfold read_document, getitem_str.
  destruct (h !! l) as [[d|xs]|] eqn:El; try discriminate.
  destruct (dict_get d "mappings") as [[| | | |ll]|] eqn:Ed; try discriminate.
  destruct (h !! ll) as [[d'|vs]|] eqn:Ell; try discriminate.
  intros H. by exists d, ll, vs.
Qed.

(** The copy handed out reads as the template does. *)
Lemma template_copy_reads (h : Heap) (ms : list Mapping) :
  read_document h (VRef SAMSUNG_FIELD_MAPPINGS) = Some ms ->
  exists d,
    h !! SAMSUNG_FIELD_MAPPINGS = Some (ODict d) /\
    get_field_mapping_template h "samsung"
      = (Returned (VRef (length h)), h ++ [ODict d]) /\
    read_document (h ++ [ODict d]) (VRef (length h)) = Some ms.
Proof.
  intros H. destruct (read_document_inv _ _ _ H) as (d & ll & vs & Hd & Hm & Hl & Hr).
  exists d. split; [done|]. split.
  - unfold get_field_mapping_template. simpl. by rewrite Hd.
  - unfold read_document, getitem_str.
    rewrite lookup_app_r by lia. rewrite Nat.sub_diag. simpl. rewrite Hm.
    rewrite (lookup_extend _ _ _ _ Hl). by apply read_mappings_extend.
Qed.

(** The loop finds the first flagged entry of a well-formed list. *)
Lemma primary_key_loop_first (h : Heap) (vs : list Val) :
  forall ms, read_mappings h vs = Some ms ->
             primary_key_loop h vs = Returned (first_primary_key ms).
Proof.
  induction vs as [|v vs IH]; intros ms; simpl.
  - by intros [= <-].
  - destruct (read_mapping h v) as [m|] eqn:Em; [|discriminate].
    destruct (read_mappings h vs) as [ms'|] eqn:Ems; [|discriminate].
    intros [= <-]. specialize (IH _ eq_refl).
    unfold read_mapping in Em. destruct v as [| | | |l]; try discriminate.
    unfold get_method, getitem_str.
    destruct (h !! l) as [[d|xs]|]; try discriminate.
    destruct (dict_get d "file1_column") as [[| | |c1|]|]; try discriminate.
    destruct (dict_get d "file2_column") as [[| | |c2|]|]; try discriminate.
    destruct (dict_get d "is_primary_key") as [[|b| | |]|]; try discriminate.
    injection Em as <-. unfold first_primary_key. simpl.
    destruct b; [done|]. exact IH.
Qed.

Lemma lower_samsung_lookup (name : string) :
  lower name = "samsung" ->
  forall h, get_field_mapping_template h name
            = get_field_mapping_template h "samsung".
Proof. intros H h. unfold get_field_mapping_template. by rewrite H. Qed.

End ConfigFacts.
(** ** Properties of recon_api.py *)

Section ClientFacts.
Import ReconApi Session.
Local Open Scope Z_scope.

(** *** Strings *)

Lemma prefix_self (s : string) : String.prefix s s = true.
Proof.
  induction s as [|c s IH]; simpl; [done|].
  destruct (ascii_dec c c) as [_|Hne]; [exact IH|by destruct Hne].
Qed.

Lemma contains_suffix (needle before : string) :
  contains needle (before +:+ needle) = true.
Proof.
  induction before as [|c before IH]; simpl.
  - destruct needle; simpl; [done|]. rewrite prefix_self.
    by destruct (ascii_dec a a) as [_|Hne]; [|destruct Hne].
  - rewrite IH. by case_match.
Qed.

Lemma append_assoc (a b c : string) : a +:+ b +:+ c = (a +:+ b) +:+ c.
Proof.
  induction a as [|x a IH]; [done|].
  change (String x (a +:+ b +:+ c) = String x ((a +:+ b) +:+ c)).
  by rewrite IH.
Qed.

(** *** The token and its window *)

Lemma is_token_valid_iff (e : Env) (s : State) :
  is_token_valid e s = true <->
  truthy (token s) = true /\
  exists expiration, token_expiration s = Some expiration /\ now e < expiration.
Proof.
  unfold is_token_valid.
  destruct (truthy (token s)); simpl.
  2: { split; [discriminate|]. by intros [? _]. }
  destruct (token_expiration s) as [x|].
  2: { split; [discriminate|]. by intros [_ (x & ? & _)]. }
  destruct (Z.geb_spec (now e) x); split.
  - discriminate.
  - intros [_ (x' & [= <-] & H')]. lia.
  - intros _. split; [done|]. exists x. split; [done|lia].
  - done.
Qed.

Lemma is_token_valid_now (e e' : Env) (s : State) :
  now e = now e' -> is_token_valid e s = is_token_valid e' s.
Proof. unfold is_token_valid. by intros ->. Qed.

Lemma is_token_valid_client (e : Env) (s s' : State) :
  token s' = token s -> token_expiration s' = token_expiration s ->
  is_token_valid e s' = is_token_valid e s.
Proof. unfold is_token_valid. by intros -> ->. Qed.

Lemma expiration_of_inv (e : Env) (v : Json) (expiration : Z) :
  expiration_of e v = Returned expiration ->
  exists n, int_value v = Some n /\
            expiration = now e + (n - 60) * 1000000 /\
            0 <= expiration <= DATETIME_MAX.
Proof.
  unfold expiration_of, timedelta_seconds, datetime_add.
  assert (forall n, match
    (if Z.abs (n / 86400) <=? 999999999 then Returned (n * 1000000)
     else Raised OverflowError) with
    | Returned delta =>
        if (0 <=? now e + delta) && (now e + delta <=? DATETIME_MAX)
        then Returned (now e + delta) else Raised OverflowError
    | Raised ex => Raised ex
    end = Returned expiration ->
    expiration = now e + n * 1000000 /\ 0 <= expiration <= DATETIME_MAX) as Hn.
  { intros n. destruct (Z.abs (n / 86400) <=? 999999999); [|discriminate].
    destruct (0 <=? now e + n * 1000000) eqn:E1; [|discriminate].
    destruct (now e + n * 1000000 <=? DATETIME_MAX) eqn:E2; [|discriminate].
    simpl. intros [= <-]. lia. }
  destruct v as [|b|n|?|?|?]; simpl; try discriminate.
  - intros H. apply Hn in H. by exists (if b then 1 else 0).
  - intros H. apply Hn in H. by exists n.
Qed.

(** A login that reports success got HTTP 200 and a JSON object, and its
    state is built from that object and the clock alone. *)
Lemma authenticate_success_inv (e : Env) (s s' : State) (u p : string) (r : Result) :
  authenticate e s u p = (Returned r, s') ->
  dict_get r "success" = Some (JBool true) ->
  exists response d expiration,
    http e (login_request s u p) = Reply response /\
    status_code response = 200 /\
    json response = JsonOk (JDict d) /\
    expiration_of e (get_default d "expires_in" (JInt 3600)) = Returned expiration /\
    s' = mkState (base_url s) (get_default d "access_token" JNone)
           (Some expiration) (trace s ++ [EvHttp (login_request s u p)]) /\
    r = [("success", JBool true);
         ("access_token", get_default d "access_token" JNone);
         ("token_type", get_default d "token_type" (JStr "Bearer"));
         ("expires_in", get_default d "expires_in" (JInt 3600))].
Proof.
  unfold authenticate.
  destruct (http e (login_request s u p)) as [response|msg ve] eqn:Eh;
    [|by intros [= <- <-]].
  destruct (Z.eqb_spec (status_code response) 200) as [E200|];
    [|by intros [= <- <-]].
  destruct (json response) as [[| | | | |d]|msg] eqn:Ej; try discriminate;
    [|by intros [= <- <-]].
  destruct (expiration_of e _) as [expiration|ex] eqn:Ee; [|discriminate].
  intros [= <- <-] _. by exists response, d, expiration.
Qed.


(** *** Calls without a valid token *)

Lemma get_auth_headers_denied (e : Env) (s : State) :
  is_token_valid e s = false ->
  get_auth_headers e s = Raised (ValueError NO_TOKEN).
Proof. unfold get_auth_headers. by intros ->. Qed.

Lemma get_auth_headers_granted (e : Env) (s : State) :
  is_token_valid e s = true ->
  get_auth_headers e s = Returned [("Authorization", HBearer (token s))].
Proof. unfold get_auth_headers. by intros ->. Qed.

(** A missing path ends an upload or a run before anything else is looked
    at, the token included. *)
Lemma upload_files_missing (e : Env) (s : State) (f1 f2 n p : string) :
  missing_path e (UploadFiles f1 f2 n) = Some p ->
  upload_files e s f1 f2 n = (Returned (failure ("File not found: " +:+ p)), s).
Proof.
  unfold missing_path, upload_files.
  destruct (path_exists e f1); simpl; [|by intros [= <-]].
  destruct (path_exists e f2); simpl; [done|by intros [= <-]].
Qed.

Lemma run_reconciliation_missing (e : Env) (s : State) (cid f1 f2 p : string) :
  missing_path e (RunReconciliation cid f1 f2) = Some p ->
  run_reconciliation e s cid f1 f2
    = (Returned (failure ("File not found: " +:+ p)), s).
Proof.
  unfold missing_path, run_reconciliation.
  destruct (path_exists e f1); simpl; [|by intros [= <-]].
  destruct (path_exists e f2); simpl; [done|by intros [= <-]].
Qed.

Lemma missing_path_spec (e : Env) (c : Call) (f1 f2 p : string) :
  (exists n, c = UploadFiles f1 f2 n) \/ (exists cid, c = RunReconciliation cid f1 f2) ->
  missing_path e c = Some p ->
  path_exists e p = false /\
  (path_exists e f1 = false -> p = f1) /\
  (path_exists e f1 = true -> p = f2).
Proof.
  intros [[n ->]|[cid ->]]; simpl;
    destruct (path_exists e f1) eqn:E1; destruct (path_exists e f2) eqn:E2;
    intros [= <-]; done.
Qed.

Lemma run_denied (e : Env) (s : State) (c : Call) :
  is_token_valid e s = false ->
  run e s c = (Returned (failure (denial e c)), s).
Proof.
  intros Hv. pose proof (get_auth_headers_denied _ _ Hv) as Hh.
  unfold denial.
  destruct c as [f1 f2 n|w cid m|cid f1 f2|w|w o]; simpl.
  - destruct (path_exists e f1) eqn:E1; [destruct (path_exists e f2) eqn:E2|];
      unfold upload_files; rewrite ?E1, ?E2; simpl; try done.
    unfold send_files. by rewrite Hh.
  - unfold set_field_mapping. by rewrite Hh.
  - destruct (path_exists e f1) eqn:E1; [destruct (path_exists e f2) eqn:E2|];
      unfold run_reconciliation; rewrite ?E1, ?E2; simpl; try done.
    unfold send_files. by rewrite Hh.
  - unfold check_status. by rewrite Hh.
  - unfold download_results. by rewrite Hh.
Qed.

Lemma run_all_denied (s : State) (script : list (Env * Call)) :
  (forall e, is_token_valid e s = false) ->
  run_all s script
    = (map (fun ec => Returned (failure (denial ec.1 ec.2))) script, s).
Proof.
  intros Hv. induction script as [|[e c] script IH]; simpl; [done|].
  by rewrite (run_denied _ _ _ (Hv e)), IH.
Qed.

(** *** What a call leaves behind *)

Lemma extends_refl (s : State) : extends s s [].
Proof. unfold extends. by rewrite app_nil_r. Qed.

Lemma extends_log (s s' : State) (evs : list Event) (ev : Event) :
  extends s s' evs -> extends s (log s' ev) (evs ++ [ev]).
Proof.
  intros (Hb & Ht & Hx & Htr). unfold extends. simpl.
  by rewrite Htr, app_assoc.
Qed.

Lemma extends_trans (s s1 s2 : State) (evs1 evs2 : list Event) :
  extends s s1 evs1 -> extends s1 s2 evs2 -> extends s s2 (evs1 ++ evs2).
Proof.
  intros (Hb & Ht & Hx & Htr) (Hb' & Ht' & Hx' & Htr'). unfold extends.
  rewrite Hb', Ht', Hx', Htr', Htr, app_assoc. done.
Qed.

Lemma requests_app (evs1 evs2 : list Event) :
  requests (evs1 ++ evs2) = requests evs1 ++ requests evs2.
Proof. apply omap_app. Qed.

Lemma write_chunks_extends (e : Env) (path : string) (chunks : list string) :
  forall s written r s',
    write_chunks e s path chunks written = (r, s') ->
    exists evs, extends s s' evs /\ requests evs = [].
Proof.
  induction chunks as [|chunk rest IH]; intros s written r s'; simpl.
  - intros [= <- <-]. exists []. split; [apply extends_refl|done].
  - destruct (String.eqb chunk ""); simpl; [apply IH|].
    destruct (write_error e path chunk) as [msg|].
    + intros [= <- <-]. exists ([] ++ [EvWrite path chunk]).
      split; [apply extends_log, extends_refl|done].
    + intros H. destruct (IH _ _ _ _ H) as (evs & Hext & Hreq).
      exists (([] ++ [EvWrite path chunk]) ++ evs). split.
      * eapply extends_trans; [apply extends_log, extends_refl|exact Hext].
      * by rewrite requests_app, Hreq.
Qed.

(** The only request a call sends is its own, and it sends it only with a
    valid token; the client itself is left as it was. *)
Lemma send_files_extends (e : Env) (s s' : State) (f1 f2 what net_what : string)
      (mk_request : list (string * HeaderVal) -> Request)
      (on_ok : list (string * Json) -> Result) (o : Outcome Result) :
  send_files e s f1 f2 mk_request what net_what on_ok = (o, s') ->
  exists evs, extends s s' evs /\
    forall req, In req (requests evs) ->
      is_token_valid e s = true /\
      req = mk_request [("Authorization", HBearer (token s))].
Proof.
  unfold send_files, get_auth_headers.
  destruct (is_token_valid e s) eqn:Hv; simpl.
  2: { intros [= <- <-]. exists []. split; [apply extends_refl|done]. }
  destruct (open_error e f1 "rb").
  { intros [= <- <-]. eexists. split; [apply extends_log, extends_refl|done]. }
  destruct (open_error e f2 "rb").
  { intros [= <- <-]. eexists.
    split; [apply extends_log, extends_log, extends_refl|done]. }
  intros H.
  assert (s' = log (log (log s (EvOpen f1 "rb")) (EvOpen f2 "rb"))
                 (EvHttp (mk_request [("Authorization", HBearer (token s))])))
    as ->.
  { revert H. repeat case_match; by intros [= _ <-]. }
  eexists. split; [apply extends_log, extends_log, extends_log, extends_refl|].
  simpl. intros req [<-|[]]. done.
Qed.

Lemma run_extends (e : Env) (s s' : State) (c : Call) (o : Outcome Result) :
  run e s c = (o, s') ->
  exists evs, extends s s' evs /\
    forall req, In req (requests evs) ->
      is_token_valid e s = true /\ req = request_of e s c.
Proof.
  destruct c as [f1 f2 n|w cid m|cid f1 f2|w|w out]; simpl.
  - unfold upload_files.
    destruct (path_exists e f1); simpl;
      [destruct (path_exists e f2); simpl|].
    + apply send_files_extends.
    + intros [= <- <-]. exists []. split; [apply extends_refl|done].
    + intros [= <- <-]. exists []. split; [apply extends_refl|done].
  - unfold set_field_mapping, get_auth_headers.
    destruct (is_token_valid e s) eqn:Hv; simpl.
    2: { intros [= <- <-]. exists []. split; [apply extends_refl|done]. }
    intros H.
    assert (s' = log s (EvHttp (request_of e s (SetFieldMapping w cid m)))) as ->.
    { revert H. simpl. repeat case_match; by intros [= _ <-]. }
    eexists. split; [apply extends_log, extends_refl|].
    simpl. intros req [<-|[]]. done.
  - unfold run_reconciliation.
    destruct (path_exists e f1); simpl;
      [destruct (path_exists e f2); simpl|].
    + apply send_files_extends.
    + intros [= <- <-]. exists []. split; [apply extends_refl|done].
    + intros [= <- <-]. exists []. split; [apply extends_refl|done].
  - unfold check_status, get_auth_headers.
    destruct (is_token_valid e s) eqn:Hv; simpl.
    2: { intros [= <- <-]. exists []. split; [apply extends_refl|done]. }
    intros H.
    assert (s' = log s (EvHttp (request_of e s (CheckStatus w)))) as ->.
    { revert H. simpl. repeat case_match; by intros [= _ <-]. }
    eexists. split; [apply extends_log, extends_refl|].
    simpl. intros req [<-|[]]. done.
  - unfold download_results, get_auth_headers.
    destruct (is_token_valid e s) eqn:Hv; simpl.
    2: { intros [= <- <-]. exists []. split; [apply extends_refl|done]. }
    match goal with
    | |- context [if ?b then (?a, ?x) else ?c] =>
        set (made := if b then (a, x) else c)
    end.
    assert (exists evs0, extends s made.1 evs0 /\ requests evs0 = []) as Hmade.
    { subst made. case_match; simpl.
      - eexists. split; [apply extends_log, extends_refl|done].
      - exists []. split; [apply extends_refl|done]. }
    destruct made as [s0 [msg|]]; simpl in Hmade;
      destruct Hmade as (evs0 & Hext0 & Hreq0).
    { intros [= <- <-]. exists evs0. split; [done|]. by rewrite Hreq0. }
    assert (base_url s0 = base_url s) as Hb by apply Hext0.
    set (req0 := download_request s0 _ w).
    assert (req0 = request_of e s (DownloadResults w out)) as Hreq.
    { subst req0. unfold download_request. simpl. by rewrite Hb. }
    pose proof (extends_log _ _ _ (EvHttp req0) Hext0) as Hext1.
    assert (forall evs, requests evs = [] ->
              forall req, In req (requests ((evs0 ++ [EvHttp req0]) ++ evs)) ->
              true = true /\ req = request_of e s (DownloadResults w out)) as Hin.
    { intros evs Hevs req. rewrite !requests_app, Hreq0, Hevs. simpl.
      intros [<-|[]]. done. }
    destruct (http e req0) as [response|msg ve].
    2: { intros [= <- <-]. eexists. split; [exact Hext1|].
         rewrite <- (app_nil_r (evs0 ++ _)). by apply Hin. }
    destruct (status_code response =? 200).
    2: { intros [= <- <-]. eexists. split; [exact Hext1|].
         rewrite <- (app_nil_r (evs0 ++ _)). by apply Hin. }
    pose proof (extends_log _ _ _ (EvOpen out "wb") Hext1) as Hext2.
    destruct (open_error e out "wb") as [msg|].
    { intros [= <- <-]. eexists. split; [exact Hext2|]. by apply (Hin [_]). }
    destruct (write_chunks e _ out (content_chunks response) 0)
      as [r s3] eqn:Ew.
    destruct (write_chunks_extends _ _ _ _ _ _ _ Ew) as (evs3 & Hext3 & Hreq3).
    pose proof (extends_trans _ _ _ _ _ Hext2 Hext3) as Hext4.
    intros H.
    assert (s' = s3) as -> by (revert H; repeat case_match; by intros [= _ <-]).
    eexists. split; [exact Hext4|].
    rewrite <- app_assoc. apply Hin. by rewrite requests_app, Hreq3.
Qed.


(** *** Requests the server rejects *)

Lemma not_2xx (status : Z) :
  status < 200 \/ 300 <= status ->
  (status =? 200) = false /\ (status =? 201) = false.
Proof. lia. Qed.

Lemma is_Some_false {A : Type} (o : option A) :
  negb (bool_decide (is_Some o)) = true -> o = None.
Proof.
  destruct o; [|done]. rewrite bool_decide_eq_true_2 by eauto. done.
Qed.

Lemma run_rejected (e : Env) (s : State) (c : Call) (response : Response) :
  reaches_server e s c = true ->
  http e (request_of e s c) = Reply response ->
  status_code response < 200 \/ 300 <= status_code response ->
  (run e s c).1 = Returned (status_failure (step_name c) response).
Proof.
  unfold reaches_server. intros [Hv Hc]%andb_prop Hr [H200 H201]%not_2xx.
  pose proof (get_auth_headers_granted _ _ Hv) as Hh.
  destruct c as [f1 f2 n|w cid m|cid f1 f2|w|w out]; simpl in *.
  - apply andb_prop in Hc as [[[E1 E2]%andb_prop O1%is_Some_false]%andb_prop
                                O2%is_Some_false].
    unfold upload_files, send_files.
    by rewrite E1, E2, Hh, O1, O2, Hr, H200, H201.
  - unfold set_field_mapping. rewrite Hh.
    change (dict_set _ "Content-Type" _)
      with [("Authorization", HBearer (token s));
            ("Content-Type", HLit "application/json")].
    by rewrite Hr, H200, H201.
  - apply andb_prop in Hc as [[[E1 E2]%andb_prop O1%is_Some_false]%andb_prop
                                O2%is_Some_false].
    unfold run_reconciliation, send_files.
    by rewrite E1, E2, Hh, O1, O2, Hr, H200, H201.
  - unfold check_status. by rewrite Hh, Hr, H200.
  - unfold download_results. rewrite Hh.
    destruct (negb (String.eqb (dirname e out) "") &&
              negb (path_exists e (dirname e out))) eqn:Emk.
    + apply andb_prop in Emk as [Ed Ep].
      apply negb_true_iff in Ed, Ep. rewrite Ed, Ep in Hc. simpl in Hc.
      apply is_Some_false in Hc. rewrite Hc.
      unfold download_request in *. simpl. by rewrite Hr, H200.
    + unfold download_request in *. simpl. by rewrite Hr, H200.
Qed.

(** *** Calls that reach the server *)


End ClientFacts.

(** ** The field-mapping template provider *)

Section TemplateClaims.
Import Config.

Lemma read_document_extend (h h2 : Heap) (v : Val) (ms : list Mapping) :
  read_document h v = Some ms -> read_document (h ++ h2) v = Some ms.
Proof.
  destruct v as [| | | |l]; try discriminate.
  intros H. destruct (read_document_inv _ _ _ H) as (d & ll & vs & Hd & Hm & Hl & Hr).
  unfold read_document, getitem_str.
  rewrite (lookup_extend _ h2 _ _ Hd), Hm, (lookup_extend _ h2 _ _ Hl).
  by apply read_mappings_extend.
Qed.

(** What the copy does protect: rebinding a key of the dictionary handed
    out leaves the template as it was. *)
Lemma rebind_key_keeps_template (h : Heap) (ms : list Mapping) (k : string) (x : Val) :
  read_document h (VRef SAMSUNG_FIELD_MAPPINGS) = Some ms ->
  exists h', Scenario.rebind_key h k x = (Returned tt, h') /\
             read_document h' (VRef SAMSUNG_FIELD_MAPPINGS) = Some ms.
Proof.
  intros H. destruct (template_copy_reads _ _ H) as (d & Hd & Hg & _).
  unfold Scenario.rebind_key. rewrite Hg. unfold setitem_str.
  rewrite lookup_app_r by lia. rewrite Nat.sub_diag. simpl.
  eexists. split; [reflexivity|].
  rewrite insert_app_r_alt by lia. rewrite Nat.sub_diag. simpl.
  by apply read_document_extend.
Qed.

(** C6: the dictionary [get_field_mapping_template] hands out is a new
    object, but its ["mappings"] list and the entries in it are the
    template's own.  After a caller clears the flag of the first entry of
    the value it was given, the built-in template itself reads with that
    flag cleared, a later call hands out the changed document, and no
    primary key is found any more. *)
Theorem template_copy_shares_entries :
  let changed :=
    mkMapping "txn_ref_number" "Transaction Reference" false
      :: tail SAMSUNG_ENTRIES in
  read_document module_heap (VRef SAMSUNG_FIELD_MAPPINGS) = Some SAMSUNG_ENTRIES /\
  exists h,
    Scenario.clear_first_flag module_heap = (Returned tt, h) /\
    read_document h (VRef SAMSUNG_FIELD_MAPPINGS) = Some changed /\
    (exists t h', get_field_mapping_template h "samsung" = (Returned t, h') /\
                  read_document h' t = Some changed) /\
    (get_primary_key_mapping h "samsung").1 = Returned [].
Proof.
  split; [reflexivity|].
  eexists. split; [reflexivity|]. split; [reflexivity|]. split.
  - eexists _, _. split; reflexivity.
  - reflexivity.
Qed.

(** C7: the template name is compared after lowercasing.  Every name that
    lowercases to "samsung" is answered exactly as "samsung" is, with a new
    dictionary that reads as the template does, which after the module has
    loaded is the document of 10 entries; every other name raises a
    [ValueError] whose message repeats the name and lists the available
    templates. *)
Theorem template_name_ignores_case (h : Heap) (name : string) :
  (lower name = "samsung" ->
     get_field_mapping_template h name = get_field_mapping_template h "samsung" /\
     (forall ms, read_document h (VRef SAMSUNG_FIELD_MAPPINGS) = Some ms ->
        exists t h', get_field_mapping_template h name = (Returned t, h') /\
                     read_document h' t = Some ms) /\
     read_document module_heap (VRef SAMSUNG_FIELD_MAPPINGS) = Some SAMSUNG_ENTRIES /\
     length SAMSUNG_ENTRIES = 10) /\
  (lower name <> "samsung" ->
     get_field_mapping_template h name =
       (Raised (ValueError ("Unknown template: " +:+ name +:+
                            ". Available templates: samsung")), h)).
Proof.
  split.
  - intros Hl. split; [by apply lower_samsung_lookup|]. split; [|done].
    intros ms Hms. rewrite (lower_samsung_lookup _ Hl).
    destruct (template_copy_reads _ _ Hms) as (d & _ & Hg & Hr). eauto.
  - intros Hl. unfold get_field_mapping_template. cbn [dict_get].
    destruct (String.eqb_spec "samsung" (lower name)) as [E|_]; [by destruct Hl|].
    reflexivity.
Qed.

Lemma template_name_ignores_case_witness :
  lower "Samsung" = "samsung" /\ lower "SAMSUNG" = "samsung" /\
  (get_field_mapping_template module_heap "SAMSUNG"
     = get_field_mapping_template module_heap "samsung") /\
  (exists t h', get_field_mapping_template module_heap "Samsung" = (Returned t, h') /\
                read_document h' t = Some SAMSUNG_ENTRIES) /\
  lower "sony" <> "samsung" /\
  get_field_mapping_template module_heap "sony" =
    (Raised (ValueError "Unknown template: sony. Available templates: samsung"),
     module_heap).
Proof.
  split; [reflexivity|]. split; [reflexivity|]. split; [|split; [|split]].
  - apply (template_name_ignores_case module_heap "SAMSUNG"). reflexivity.
  - apply (template_name_ignores_case module_heap "Samsung");  reflexivity.
  - discriminate.
  - apply (template_name_ignores_case module_heap "sony"). discriminate.
Defined.

(** C8: for "samsung" the primary key is txn_ref_number / Transaction
    Reference.  Whatever entries the template holds, the result is the
    first entry in order whose [is_primary_key] is true, reduced to its two
    column names, and the empty dictionary when no entry is flagged. *)
Theorem primary_key_is_first_flagged_entry :
  (get_primary_key_mapping module_heap "samsung").1 =
    Returned [("file1_column", VStr "txn_ref_number");
              ("file2_column", VStr "Transaction Reference")] /\
  forall (h : Heap) (name : string) (ms : list Mapping),
    lower name = "samsung" ->
    read_document h (VRef SAMSUNG_FIELD_MAPPINGS) = Some ms ->
    (get_primary_key_mapping h name).1 =
      Returned match List.find is_primary_key ms with
               | Some m => [("file1_column", VStr (file1_column m));
                            ("file2_column", VStr (file2_column m))]
               | None => []
               end.
Proof.
  split; [reflexivity|]. intros h name ms Hl Hms.
  unfold get_primary_key_mapping. rewrite (lower_samsung_lookup _ Hl).
  destruct (template_copy_reads _ _ Hms) as (d & Hd & -> & Hr).
  destruct (read_document_inv _ _ _ Hr) as (d' & ll & vs & Hd' & Hm & Hll & Hvs).
  unfold getitem_str, iterate. rewrite Hd', Hm, Hll. simpl.
  by apply primary_key_loop_first.
Qed.

Lemma primary_key_is_first_flagged_entry_witness :
  lower "SAMSUNG" = "samsung" /\
  (get_primary_key_mapping module_heap "SAMSUNG").1 =
    Returned [("file1_column", VStr "txn_ref_number");
              ("file2_column", VStr "Transaction Reference")].
Proof.
  split; [reflexivity|].
  apply (proj2 primary_key_is_first_flagged_entry
           module_heap "SAMSUNG" SAMSUNG_ENTRIES); reflexivity.
Defined.

End TemplateClaims.

(** ** The session and the transport client *)

Section ClientClaims.
Import ReconApi Session.
Local Open Scope Z_scope.




(** C2 (amended): a call made without a valid token returns
    [{success: false, error: ...}] and leaves the client and its trace as
    they were: no request is sent and no login is attempted.  The error is
    the unauthenticated message, except that [upload_files] and
    [run_reconciliation] given a path that is not on disk report
    "File not found" for that path instead. *)
Theorem calls_without_token_are_turned_away (e : Env) (s : State) (c : Call) :
  is_token_valid e s = false ->
  exists msg,
    run e s c = (Returned [("success", JBool false); ("error", JStr msg)], s) /\
    (missing_path e c = None -> msg = NO_TOKEN) /\
    (forall p, missing_path e c = Some p -> msg = "File not found: " +:+ p) /\
    match c with
    | UploadFiles _ _ _ | RunReconciliation _ _ _ => True
    | _ => msg = NO_TOKEN
    end.
Proof.
  intros Hv. exists (denial e c). split; [by apply run_denied|].
  unfold denial. split_and!.
  - by intros ->.
  - by intros p ->.
  - by destruct c.
Qed.

Lemma calls_without_token_are_turned_away_witness :
  run unauthorized fresh_client (CheckStatus "ws-1")
    = (Returned [("success", JBool false); ("error", JStr NO_TOKEN)], fresh_client) /\
  run (world (NEW_YEAR + 3600 * 1000000) ["a.xlsx"; "b.xlsx"] (ok JNone))
      logged_in (UploadFiles "a.xlsx" "b.xlsx" "cfg")
    = (Returned [("success", JBool false); ("error", JStr NO_TOKEN)], logged_in).
Proof.
  split.
  - destruct (calls_without_token_are_turned_away unauthorized fresh_client
                (CheckStatus "ws-1") eq_refl) as (msg & -> & _ & _ & ->).
    reflexivity.
  - destruct (calls_without_token_are_turned_away
                (world (NEW_YEAR + 3600 * 1000000) ["a.xlsx"; "b.xlsx"] (ok JNone))
                logged_in (UploadFiles "a.xlsx" "b.xlsx" "cfg") eq_refl)
      as (msg & -> & Hm & _).
    rewrite (Hm eq_refl). reflexivity.
Defined.

(** Against C2 as written: without a token, an upload of a file that is
    not on disk is turned away with "File not found", not with the
    unauthenticated message. *)
Lemma missing_file_hides_missing_token :
  is_token_valid unauthorized fresh_client = false /\
  run unauthorized fresh_client (UploadFiles "zz.xlsx" "b.xlsx" "cfg")
    = (Returned (failure "File not found: zz.xlsx"), fresh_client) /\
  run unauthorized fresh_client (UploadFiles "zz.xlsx" "b.xlsx" "cfg")
    <> (Returned (failure NO_TOKEN), fresh_client).
Proof. split_and!; [reflexivity|reflexivity|discriminate]. Qed.

(** C3: when one of the five calls has sent its request and the answer has
    a status outside 200..299, the result is
    [{success: false, error: ..., detail: ...}] where the error ends with
    the status code (so it contains "401" for a 401) and the detail is the
    body as JSON when it parses and the raw text otherwise. *)
Theorem rejected_request_failure_shape
        (e : Env) (s : State) (c : Call) (response : Response) :
  reaches_server e s c = true ->
  http e (request_of e s c) = Reply response ->
  status_code response < 200 \/ 300 <= status_code response ->
  exists err,
    (run e s c).1 =
      Returned [("success", JBool false); ("error", JStr err);
                ("detail", match json response with
                           | JsonOk body => body
                           | JsonFail _ => JStr (text response)
                           end)] /\
    err = step_name c +:+ " failed with status " +:+
          str_of_int (status_code response) /\
    contains (str_of_int (status_code response)) err = true /\
    (status_code response = 401 -> contains "401" err = true).
Proof.
  intros Hs Hr Hc.
  exists (step_name c +:+ " failed with status " +:+
          str_of_int (status_code response)).
  split; [by apply run_rejected|]. split; [reflexivity|].
  rewrite append_assoc. split; [apply contains_suffix|].
  intros ->. apply contains_suffix.
Qed.

Lemma rejected_request_failure_shape_witness :
  (run unauthorized logged_in (DownloadResults "ws-1" "out.xlsx")).1 =
    Returned [("success", JBool false);
              ("error", JStr "Download failed with status 401");
              ("detail", JStr "token expired")] /\
  contains "401" "Download failed with status 401" = true.
Proof.
  destruct (rejected_request_failure_shape unauthorized logged_in
              (DownloadResults "ws-1" "out.xlsx")
              (mkResponse 401 (JsonFail "Expecting value") "token expired" [] None)
              eq_refl eq_refl)
    as (err & Hrun & -> & _ & H401).
  { right. simpl. lia. }
  split; [exact Hrun|]. apply H401. reflexivity.
Defined.

(** C4: when the first or the second path is not on disk, [upload_files]
    and [run_reconciliation] return
    [{success: false, error: "File not found: <path>"}] for the first of
    the two that is missing, which is the missing one when only one is, and
    the state comes back as it was: no file has been opened and no request
    sent. *)
Theorem missing_file_named_before_any_effect
        (e : Env) (s : State) (f1 f2 : string) :
  path_exists e f1 = false \/ path_exists e f2 = false ->
  exists p,
    p = (if path_exists e f1 then f2 else f1) /\
    path_exists e p = false /\
    (forall n, upload_files e s f1 f2 n
               = (Returned [("success", JBool false);
                            ("error", JStr ("File not found: " +:+ p))], s)) /\
    (forall cid, run_reconciliation e s cid f1 f2
                 = (Returned [("success", JBool false);
                              ("error", JStr ("File not found: " +:+ p))], s)).
Proof.
  intros Hm. exists (if path_exists e f1 then f2 else f1).
  assert (forall c, (exists n, c = UploadFiles f1 f2 n) \/
                    (exists cid, c = RunReconciliation cid f1 f2) ->
            missing_path e c = Some (if path_exists e f1 then f2 else f1)) as Hp.
  { intros c [[n ->]|[cid ->]]; simpl;
      destruct (path_exists e f1); destruct (path_exists e f2);
      try done; by destruct Hm. }
  split_and!; [done| |intros n|intros cid].
  - destruct (path_exists e f1) eqn:E1; [|done]. by destruct Hm.
  - apply upload_files_missing, Hp. eauto.
  - apply run_reconciliation_missing, Hp. eauto.
Qed.

Lemma missing_file_named_before_any_effect_witness :
  upload_files good_login logged_in "a.xlsx" "gone.xlsx" "cfg"
    = (Returned (failure "File not found: gone.xlsx"), logged_in) /\
  run_reconciliation good_login logged_in "cfg-1" "lost.xlsx" "gone.xlsx"
    = (Returned (failure "File not found: lost.xlsx"), logged_in).
Proof.
  split.
  - destruct (missing_file_named_before_any_effect good_login logged_in
                "a.xlsx" "gone.xlsx") as (p & -> & _ & Hu & _);
      [right; reflexivity|]. apply Hu.
  - destruct (missing_file_named_before_any_effect good_login logged_in
                "lost.xlsx" "gone.xlsx") as (p & -> & _ & _ & Hr);
      [left; reflexivity|]. apply Hr.
Defined.

(** C9: in [upload_files] and [run_reconciliation] the files are checked
    before the token: with a path missing and no valid token, the error is
    "File not found: <path>", never the unauthenticated message, and the
    state comes back as it was, so no request has been sent. *)
Theorem missing_file_reported_before_token
        (e : Env) (s : State) (f1 f2 : string) :
  is_token_valid e s = false ->
  path_exists e f1 = false \/ path_exists e f2 = false ->
  exists p,
    (p = f1 \/ p = f2) /\ path_exists e p = false /\
    "File not found: " +:+ p <> NO_TOKEN /\
    (forall n, upload_files e s f1 f2 n
               = (Returned [("success", JBool false);
                            ("error", JStr ("File not found: " +:+ p))], s)) /\
    (forall cid, run_reconciliation e s cid f1 f2
                 = (Returned [("success", JBool false);
                              ("error", JStr ("File not found: " +:+ p))], s)).
Proof.
  intros _ Hm.
  assert (exists p, missing_path e (UploadFiles f1 f2 "") = Some p) as [p Hp].
  { simpl. destruct (path_exists e f1); [|eauto].
    destruct (path_exists e f2); [|eauto]. by destruct Hm. }
  destruct (missing_path_spec e _ f1 f2 p (or_introl (ex_intro _ "" eq_refl)) Hp)
    as (Hgone & H1 & H2).
  exists p. split_and!; try done.
  - destruct (path_exists e f1); [right; by apply H2|left; by apply H1].
  - intros n. by apply upload_files_missing.
  - intros cid. by apply run_reconciliation_missing.
Qed.

Lemma missing_file_reported_before_token_witness :
  upload_files unauthorized fresh_client "a.xlsx" "gone.xlsx" "cfg"
    = (Returned (failure "File not found: gone.xlsx"), fresh_client).
Proof.
  destruct (missing_file_reported_before_token unauthorized fresh_client
              "a.xlsx" "gone.xlsx" eq_refl (or_intror eq_refl))
    as (p & [->| ->] & Hgone & _ & Hu & _); [discriminate Hgone|apply Hu].
Defined.



(** C10 (amended): take a login answered with HTTP 200 and a JSON object
    without [access_token].  When [expires_in] is absent, or is an integer
    from which the expiry instant can be computed, [authenticate] still
    returns [{success: true, access_token: None, token_type, expires_in}],
    with the object's [token_type] and [expires_in], "Bearer" and 3600 where
    it omits them, and stores [None] as the token and the login time plus
    [expires_in - 60] seconds as its expiry.  The token is then never valid,
    and every call made afterwards fails without sending a request: with the
    unauthenticated message, or, for [upload_files] and
    [run_reconciliation] given a path that is not on disk, with "File not
    found" for that path.  When [expires_in] is present and is [null], a
    string, a list or an object, [authenticate] reports nothing: it raises
    [TypeError], after it has stored [None] as the token. *)
Theorem tokenless_login_reports_success
        (e : Env) (s : State) (u p : string) (response : Response)
        (d : list (string * Json)) :
  http e (login_request s u p) = Reply response ->
  status_code response = 200 ->
  json response = JsonOk (JDict d) ->
  dict_get d "access_token" = None ->
  (forall expiration,
     expiration_of e (get_default d "expires_in" (JInt 3600))
       = Returned expiration ->
     exists token_type expires_in n s',
       authenticate e s u p
         = (Returned [("success", JBool true); ("access_token", JNone);
                      ("token_type", token_type); ("expires_in", expires_in)],
            s') /\
       token_type = get_default d "token_type" (JStr "Bearer") /\
       expires_in = get_default d "expires_in" (JInt 3600) /\
       (dict_get d "token_type" = None -> token_type = JStr "Bearer") /\
       (dict_get d "expires_in" = None -> expires_in = JInt 3600) /\
       int_value expires_in = Some n /\
       expiration = now e + (n - 60) * 1000000 /\
       token s' = JNone /\
       token_expiration s' = Some expiration /\
       trace s' = trace s ++ [EvHttp (login_request s u p)] /\
       (forall e', is_token_valid e' s' = false) /\
       (forall script,
          run_all s' script
            = (map (fun ec =>
                      Returned [("success", JBool false);
                                ("error", JStr match missing_path ec.1 ec.2 with
                                               | Some path =>
                                                   "File not found: " +:+ path
                                               | None => NO_TOKEN
                                               end)]) script, s'))) /\
  (not_a_number (get_default d "expires_in" (JInt 3600)) = true ->
   exists s',
     authenticate e s u p = (Raised TypeError, s') /\
     token s' = JNone /\
     token_expiration s' = token_expiration s /\
     trace s' = trace s ++ [EvHttp (login_request s u p)]).
Proof.
  intros Hh H200 Hj Hd. split.
  - intros expiration He.
    destruct (expiration_of_inv _ _ _ He) as (n & Hn & Hx & _).
    eexists _, _, n, _. split.
    { unfold authenticate. rewrite Hh, H200, Hj, He. simpl.
      unfold get_default at 1. rewrite Hd. reflexivity. }
    split; [reflexivity|]. split; [reflexivity|].
    unfold get_default at 1 2. split_and!.
    + by intros ->.
    + by intros ->.
    + exact Hn.
    + exact Hx.
    + unfold get_default. simpl. by rewrite Hd.
    + reflexivity.
    + reflexivity.
    + intros e'. unfold is_token_valid, get_default. simpl. by rewrite Hd.
    + intros script. apply run_all_denied.
      intros e'. unfold is_token_valid, get_default. simpl. by rewrite Hd.
  - intros Hnum.
    assert (expiration_of e (get_default d "expires_in" (JInt 3600))
            = Raised TypeError) as He.
    { unfold expiration_of.
      by destruct (get_default d "expires_in" (JInt 3600)). }
    eexists. split.
    { unfold authenticate. rewrite Hh, H200, Hj, He. reflexivity. }
    unfold get_default. simpl. by rewrite Hd.
Qed.

Lemma tokenless_login_reports_success_witness :
  (exists s',
     authenticate empty_login fresh_client "user@example.com" "secret"
       = (Returned [("success", JBool true); ("access_token", JNone);
                    ("token_type", JStr "Bearer"); ("expires_in", JInt 3600)], s') /\
     token_expiration s' = Some (NEW_YEAR + 3540 * 1000000) /\
     is_token_valid empty_login s' = false /\
     (run_all s' [(empty_login, CheckStatus "ws-1");
                  (empty_login, DownloadResults "ws-1" "out.xlsx")]).1
       = [Returned (failure NO_TOKEN); Returned (failure NO_TOKEN)]) /\
  (let textual := world NEW_YEAR [] (ok (JDict [("expires_in", JStr "3600")])) in
   (authenticate textual fresh_client "user@example.com" "secret").1
     = Raised TypeError).
Proof.
  split.
  - destruct (tokenless_login_reports_success empty_login fresh_client
                "user@example.com" "secret"
                (mkResponse 200 (JsonOk (JDict [])) "" [] None) []
                eq_refl eq_refl eq_refl eq_refl) as [H _].
    destruct (H _ eq_refl)
      as (tt & ei & n & s' & Ha & -> & -> & _ & _ & _ & _ & _ & Hx & _ & Hv & Hall).
    exists s'. split; [exact Ha|]. split; [exact Hx|]. split; [apply Hv|].
    rewrite Hall. reflexivity.
  - intros textual.
    destruct (tokenless_login_reports_success textual fresh_client
                "user@example.com" "secret"
                (mkResponse 200 (JsonOk (JDict [("expires_in", JStr "3600")]))
                   "" [] None) [("expires_in", JStr "3600")]
                eq_refl eq_refl eq_refl eq_refl) as [_ H].
    destruct (H eq_refl) as (s' & Ha & _). by rewrite Ha.
Defined.

(** Against C10 as written: after such a login, an upload of a file that
    is not on disk fails with "File not found", not with the
    unauthenticated message. *)
Lemma tokenless_login_then_missing_file :
  exists r s',
    authenticate empty_login fresh_client "user@example.com" "secret"
      = (Returned r, s') /\
    dict_get r "success" = Some (JBool true) /\
    dict_get r "access_token" = Some JNone /\
    run empty_login s' (UploadFiles "zz.xlsx" "b.xlsx" "cfg")
      = (Returned (failure "File not found: zz.xlsx"), s') /\
    run empty_login s' (UploadFiles "zz.xlsx" "b.xlsx" "cfg")
      <> (Returned (failure NO_TOKEN), s').
Proof. eexists _, _. split_and!; try reflexivity. discriminate. Qed.

End ClientClaims.

(** ** Settings: validation and report *)

Section SettingsFacts.
Import Settings.

Lemma nonempty_prefix (p u : string) :
  p <> "" -> String.prefix p u = true -> nonempty u = true.
Proof. destruct p; [done|]. destruct u; [discriminate|done]. Qed.

(** X1: The configuration is valid exactly when the base URL starts with
    "http://" or "https://"; at most one error is reported, and neither the
    credentials nor the [.env] file have a say. *)
Theorem config_valid_iff_http_url (g : Globals) (dotenv_exists : bool) :
  (valid (validate_config g dotenv_exists) = true <->
   String.prefix "http://" (API_BASE_URL g) = true \/
   String.prefix "https://" (API_BASE_URL g) = true) /\
  (valid (validate_config g dotenv_exists) = true <->
   errors (validate_config g dotenv_exists) = []) /\
  length (errors (validate_config g dotenv_exists)) <= 1.
Proof.
  unfold validate_config. simpl.
  destruct (nonempty (API_BASE_URL g)) eqn:En; simpl.
  - destruct (String.prefix "http://" (API_BASE_URL g)) eqn:E1; simpl.
    { split_and!; [split; auto|done|lia]. }
    destruct (String.prefix "https://" (API_BASE_URL g)) eqn:E2; simpl.
    { split_and!; [split; auto|done|lia]. }
    split_and!; [|done|lia]. split; [done|]. by intros [?|?].
  - split_and!; [|done|lia]. split; [done|].
    intros [H|H]; apply nonempty_prefix in H; try done; congruence.
Qed.

(** X2: No warning is given exactly when both credentials are set; the
    warning about the [.env] file is given exactly when the file is
    missing and a credential is not set. *)
Theorem config_warnings_follow_credentials (g : Globals) (dotenv_exists : bool) :
  (warnings (validate_config g dotenv_exists) = [] <->
   nonempty (USERNAME g) = true /\ nonempty (PASSWORD g) = true) /\
  (In ".env file not found - consider copying .env.example and configuring credentials"
      (warnings (validate_config g dotenv_exists)) <->
   dotenv_exists = false /\
   (nonempty (USERNAME g) = false \/ nonempty (PASSWORD g) = false)).
Proof.
  unfold validate_config. simpl.
  destruct (nonempty (USERNAME g)), (nonempty (PASSWORD g)), dotenv_exists;
    simpl; intuition (try discriminate; try congruence; auto).
Qed.

(** X3: The validation result and the printed report show whether a user name
    and a password are set, never what they are: two settings that differ
    only in the values of credentials that are set give the same result and
    the same report. *)
Theorem config_report_hides_credentials (g1 g2 : Globals) (dotenv_exists : bool) :
  API_BASE_URL g1 = API_BASE_URL g2 ->
  DEBUG g1 = DEBUG g2 ->
  nonempty (USERNAME g1) = nonempty (USERNAME g2) ->
  nonempty (PASSWORD g1) = nonempty (PASSWORD g2) ->
  validate_config g1 dotenv_exists = validate_config g2 dotenv_exists /\
  print_config_status g1 dotenv_exists = print_config_status g2 dotenv_exists.
Proof.
  intros Hu Hd Hn Hp.
  assert (validate_config g1 dotenv_exists = validate_config g2 dotenv_exists) as Hv.
  { unfold validate_config. by rewrite Hu, Hd, Hn, Hp. }
  split; [done|]. unfold print_config_status. by rewrite Hv.
Qed.

Lemma config_report_hides_credentials_witness :
  print_config_status (mkGlobals "https://recon.benow.in/api/recon" "ann" "pw-1" false) true
  = print_config_status (mkGlobals "https://recon.benow.in/api/recon" "bob" "pw-2" false) true.
Proof.
  apply (config_report_hides_credentials
           (mkGlobals "https://recon.benow.in/api/recon" "ann" "pw-1" false)
           (mkGlobals "https://recon.benow.in/api/recon" "bob" "pw-2" false)
           true); reflexivity.
Defined.

(** X4: A base URL that is not in the environment falls back to the built-in
    one, which is valid; one that is set but empty is reported as not
    set. *)
Theorem config_from_environment (environ : list (string * string))
        (dotenv_exists : bool) :
  (dict_get environ "RECON_API_BASE_URL" = None ->
   valid (validate_config (load environ) dotenv_exists) = true) /\
  (dict_get environ "RECON_API_BASE_URL" = Some "" ->
   errors (validate_config (load environ) dotenv_exists)
     = ["RECON_API_BASE_URL is not set"]) /\
  (DEBUG (load environ) = true <->
   exists v, dict_get environ "DEBUG" = Some v /\ lower v = "true").
Proof.
  unfold validate_config, load, getenv. simpl. split_and!.
  - by intros ->.
  - by intros ->.
  - destruct (dict_get environ "DEBUG") as [v|]; simpl.
    + rewrite String.eqb_eq. split; [eauto|]. by intros (v' & [= <-] & ?).
    + split; [done|]. by intros (v' & ? & _).
Qed.

Lemma config_from_environment_witness :
  valid (validate_config (load [("DEBUG", "True")]) false) = true /\
  errors (validate_config (load [("RECON_API_BASE_URL", "")]) true)
    = ["RECON_API_BASE_URL is not set"] /\
  DEBUG (load [("DEBUG", "True")]) = true.
Proof.
  destruct (config_from_environment [("DEBUG", "True")] false) as (H1 & _ & H3).
  destruct (config_from_environment [("RECON_API_BASE_URL", "")] true)
    as (_ & H2 & _).
  split_and!.
  - apply H1. reflexivity.
  - apply H2. reflexivity.
  - apply H3. exists "True". split; reflexivity.
Defined.

End SettingsFacts.

(** ** The template provider: what a call does to the heap *)

Section TemplateFacts.
Import Config.

Lemma unknown_template_raises (h : Heap) (name : string) :
  lower name <> "samsung" ->
  get_field_mapping_template h name =
    (Raised (ValueError ("Unknown template: " +:+ name +:+
                         ". Available templates: samsung")), h).
Proof.
  intros Hl. unfold get_field_mapping_template. cbn [dict_get].
  destruct (String.eqb_spec "samsung" (lower name)) as [E|_]; [by destruct Hl|].
  reflexivity.
Qed.

Lemma template_call_frame (h : Heap) (name : string) :
  let r := get_field_mapping_template h name in
  (forall l o, h !! l = Some o -> r.2 !! l = Some o) /\
  (forall t, r.1 = Returned t ->
     t = VRef (length h) /\ h !! length h = None /\
     t <> VRef SAMSUNG_FIELD_MAPPINGS /\
     exists obj, h !! SAMSUNG_FIELD_MAPPINGS = Some obj /\ r.2 = h ++ [obj]) /\
  (forall ex, r.1 = Raised ex -> r.2 = h).
Proof.
  unfold get_field_mapping_template. cbn [dict_get].
  destruct (String.eqb "samsung" (lower name)); simpl.
  - destruct (h !! SAMSUNG_FIELD_MAPPINGS) as [obj|] eqn:E; simpl.
    + split_and!.
      * intros l o Hl. by apply lookup_extend.
      * intros t [= <-]. split_and!; try done.
        -- apply lookup_ge_None. lia.
        -- intros [= Hlen]. apply lookup_lt_Some in E. lia.
        -- by exists obj.
      * done.
    + split_and!; done.
  - split_and!; done.
Qed.

(** X5: A call of [get_field_mapping_template] changes no object that exists:
    when it returns, the heap has grown by one object, a copy of the
    template's dictionary, and the reference handed out is to that new
    object, not to the template; when it raises, the heap is as before. *)
Theorem template_call_only_allocates (h : Heap) (name : string) :
  let r := get_field_mapping_template h name in
  (forall l o, h !! l = Some o -> r.2 !! l = Some o) /\
  (forall t, r.1 = Returned t ->
     t = VRef (length h) /\ h !! length h = None /\
     t <> VRef SAMSUNG_FIELD_MAPPINGS /\
     exists obj, h !! SAMSUNG_FIELD_MAPPINGS = Some obj /\ r.2 = h ++ [obj]) /\
  (forall ex, r.1 = Raised ex -> r.2 = h).
Proof. apply template_call_frame. Qed.

(** X6: Two calls hand out two different dictionaries, neither of them the
    template. *)
Theorem template_calls_return_distinct_dictionaries
        (h h1 h2 : Heap) (name1 name2 : string) (t1 t2 : Val) :
  get_field_mapping_template h name1 = (Returned t1, h1) ->
  get_field_mapping_template h1 name2 = (Returned t2, h2) ->
  t1 <> t2 /\ t1 <> VRef SAMSUNG_FIELD_MAPPINGS /\
  t2 <> VRef SAMSUNG_FIELD_MAPPINGS /\
  forall l o, h !! l = Some o -> h2 !! l = Some o.
Proof.
  intros H1 H2.
  destruct (template_call_frame h name1) as (Hk1 & Hr1 & _).
  destruct (template_call_frame h1 name2) as (Hk2 & Hr2 & _).
  rewrite H1 in Hk1, Hr1. rewrite H2 in Hk2, Hr2. simpl in *.
  destruct (Hr1 _ eq_refl) as (-> & _ & Hn1 & obj1 & _ & ->).
  destruct (Hr2 _ eq_refl) as (-> & _ & Hn2 & _).
  split_and!; try done.
  - rewrite length_app. simpl. intros [= ?]. lia.
  - intros l o Hl. by apply Hk2, Hk1.
Qed.

Lemma template_calls_return_distinct_dictionaries_witness :
  exists t1 h1 t2 h2,
    get_field_mapping_template module_heap "samsung" = (Returned t1, h1) /\
    get_field_mapping_template h1 "Samsung" = (Returned t2, h2) /\
    t1 <> t2.
Proof.
  eexists _, _, _, _. split; [reflexivity|]. split; [reflexivity|].
  apply (template_calls_return_distinct_dictionaries
           module_heap _ _ "samsung" "Samsung" _ _ eq_refl eq_refl).
Defined.

Lemma rebind_key_keeps_template_witness :
  exists h',
    Scenario.rebind_key module_heap "mappings" VNone = (Returned tt, h') /\
    read_document h' (VRef SAMSUNG_FIELD_MAPPINGS) = Some SAMSUNG_ENTRIES.
Proof.
  apply (rebind_key_keeps_template module_heap SAMSUNG_ENTRIES "mappings" VNone).
  reflexivity.
Defined.

(** X8: For a name that is not a template, [get_primary_key_mapping] raises
    the [ValueError] of the template lookup and leaves the heap alone. *)
Theorem primary_key_of_unknown_template (h : Heap) (name : string) :
  lower name <> "samsung" ->
  get_primary_key_mapping h name =
    (Raised (ValueError ("Unknown template: " +:+ name +:+
                         ". Available templates: samsung")), h).
Proof.
  intros Hl. unfold get_primary_key_mapping.
  by rewrite (unknown_template_raises _ _ Hl).
Qed.

Lemma primary_key_of_unknown_template_witness :
  get_primary_key_mapping module_heap "lg" =
    (Raised (ValueError "Unknown template: lg. Available templates: samsung"),
     module_heap).
Proof.
  apply (primary_key_of_unknown_template module_heap "lg"). discriminate.
Defined.

End TemplateFacts.

(** ** The primary key of arbitrary entries *)

Section PrimaryKeyFacts.
Import Config Cover.

(** X9: Whatever dictionaries the list of mappings holds, the result is decided
    by the first one whose [is_primary_key] is truthy; an entry without
    that key is passed over.  The flagged entry gives its two columns, or a
    [KeyError] naming the first of the two it lacks; with no flagged entry
    the result is the empty dictionary. *)
Theorem primary_key_of_arbitrary_entries
        (h : Heap) (vs : list Val) (ds : list (list (string * Val))) :
  entry_dicts h vs = Some ds ->
  primary_key_loop h vs =
    match List.find (flagged h) ds with
    | None => Returned []
    | Some d =>
        match dict_get d "file1_column", dict_get d "file2_column" with
        | None, _ => Raised (KeyError "file1_column")
        | Some _, None => Raised (KeyError "file2_column")
        | Some c1, Some c2 =>
            Returned [("file1_column", c1); ("file2_column", c2)]
        end
    end.
Proof.
  revert ds. induction vs as [|v vs IH]; intros ds; simpl.
  - by intros [= <-].
  - destruct v as [| | | |l]; try discriminate.
    destruct (h !! l) as [[d|xs]|] eqn:El; try discriminate.
    destruct (entry_dicts h vs) as [ds'|]; [|discriminate].
    intros [= <-]. specialize (IH _ eq_refl).
    unfold get_method, getitem_str. rewrite El. simpl.
    fold (flagged h d). destruct (flagged h d); [|exact IH].
    destruct (dict_get d "file1_column"); [|done].
    by destruct (dict_get d "file2_column").
Qed.

Lemma primary_key_of_arbitrary_entries_witness :
  primary_key_loop
    [ODict [("file1_column", VStr "id")];
     ODict [("file1_column", VStr "amount"); ("is_primary_key", VInt 1)]]
    [VRef 0; VRef 1]
  = Raised (KeyError "file2_column").
Proof.
  apply (primary_key_of_arbitrary_entries
           [ODict [("file1_column", VStr "id")];
            ODict [("file1_column", VStr "amount"); ("is_primary_key", VInt 1)]]
           [VRef 0; VRef 1]
           [[("file1_column", VStr "id")];
            [("file1_column", VStr "amount"); ("is_primary_key", VInt 1)]]).
  reflexivity.
Defined.

End PrimaryKeyFacts.

(** ** The session over time *)

Section SessionFacts.
Import ReconApi Session Cover Settings.
Local Open Scope Z_scope.

Lemma rstrip_slash_parts (url : string) :
  exists k, url = rstrip_slash url +:+ repeat_string "/" k.
Proof.
  induction url as [|c url [k IH]]; [by exists 0%nat|].
  simpl. destruct (rstrip_slash url) as [|a r] eqn:Er.
  - simpl in IH. destruct (Ascii.eqb_spec c "/") as [->|Hc].
    + exists (S k). by rewrite IH at 1.
    + exists k. by rewrite IH at 1.
  - exists k. rewrite IH at 1. reflexivity.
Qed.

Lemma rstrip_slash_last (url : string) :
  last_char (rstrip_slash url) <> Some "/"%char.
Proof.
  induction url as [|c url IH]; [done|].
  simpl. destruct (rstrip_slash url) as [|a r] eqn:Er.
  - destruct (Ascii.eqb_spec c "/") as [->|Hc]; simpl; congruence.
  - exact IH.
Qed.

(** X10: The client keeps the base URL without its trailing slashes: the URL
    given is the one kept followed by slashes only, and the one kept does
    not end in a slash; a new client holds no token. *)
Theorem init_strips_trailing_slashes (url : string) :
  (exists k, url = base_url (init url) +:+ repeat_string "/" k) /\
  last_char (base_url (init url)) <> Some "/"%char /\
  init (base_url (init url)) = init url /\
  token (init url) = JNone /\ token_expiration (init url) = None.
Proof.
  split_and!; try done.
  - apply rstrip_slash_parts.
  - apply rstrip_slash_last.
  - unfold init. simpl. f_equal.
    generalize (rstrip_slash_last url).
    generalize (rstrip_slash url) as r. clear url.
    induction r as [|c r IH]; [done|]. intros Hl. simpl.
    destruct r as [|a r].
    + simpl. destruct (Ascii.eqb_spec c "/") as [->|]; [by destruct Hl|done].
    + rewrite IH by exact Hl. done.
Qed.

(** Validity only ever ends: a token valid at one reading of the clock is
    valid at every earlier one. *)
Lemma is_token_valid_earlier (e e' : Env) (s : State) :
  now e <= now e' -> is_token_valid e' s = true -> is_token_valid e s = true.
Proof.
  rewrite !is_token_valid_iff. intros Hle [Ht (x & Hx & Hlt)].
  split; [done|]. exists x. split; [done|lia].
Qed.

Lemma run_all_extends (script : list (Env * Call)) :
  forall s, exists evs, extends s (run_all s script).2 evs.
Proof.
  induction script as [|[e c] script IH]; intros s; simpl.
  - exists []. apply extends_refl.
  - destruct (run e s c) as [o s1] eqn:Er.
    destruct (run_extends _ _ _ _ _ Er) as (evs1 & Hext1 & _).
    destruct (IH s1) as (evs2 & Hext2).
    destruct (run_all s1 script) as [os s2]. simpl in *.
    exists (evs1 ++ evs2). by eapply extends_trans.
Qed.

Lemma run_all_keeps_validity (s : State) (script : list (Env * Call)) (e : Env) :
  is_token_valid e (run_all s script).2 = is_token_valid e s.
Proof.
  destruct (run_all_extends script s) as (evs & Hb & Ht & Hx & Htr).
  by apply is_token_valid_client.
Qed.

(** X11: None of the five calls, however many are made and however they end,
    touches the session: base URL, token and expiry stay as they are and
    the trace only grows, so the token is valid afterwards at exactly the
    times it was valid before. *)
Theorem calls_keep_the_session (s : State) (script : list (Env * Call)) :
  let s' := (run_all s script).2 in
  base_url s' = base_url s /\ token s' = token s /\
  token_expiration s' = token_expiration s /\
  (exists evs, trace s' = trace s ++ evs) /\
  forall e, is_token_valid e s' = is_token_valid e s.
Proof.
  destruct (run_all_extends script s) as (evs & Hb & Ht & Hx & Htr).
  simpl. split_and!; try done; [by exists evs|].
  intros e. by apply is_token_valid_client.
Qed.

(** X12: A token that is not valid now is not valid later either, whatever
    calls are made in between: only a new login brings validity back. *)
Theorem expired_token_stays_expired
        (e e' : Env) (s : State) (script : list (Env * Call)) :
  is_token_valid e s = false ->
  now e <= now e' ->
  is_token_valid e' (run_all s script).2 = false.
Proof.
  intros Hv Hle. apply not_true_is_false. intros Hv'.
  rewrite run_all_keeps_validity in Hv'.
  by rewrite (is_token_valid_earlier _ _ _ Hle Hv') in Hv.
Qed.

End SessionFacts.

(** ** What the five calls return, raise and send *)

Section CallFacts.
Import ReconApi Session Cover.
Local Open Scope Z_scope.

Ltac open_calls :=
  unfold run, upload_files, run_reconciliation, set_field_mapping,
    check_status, download_results, send_files, get_auth_headers in *.

(** X13: Whatever one of the five calls returns is one of three dictionaries:
    [{success: True, ...}] with the keys of that call, or
    [{success: False, error}] with or without a [detail].  The same holds
    for [authenticate]. *)
Theorem results_have_uniform_shape (e : Env) (s : State) :
  (forall c r,
     (run e s c).1 = Returned r ->
     (dict_get r "success" = Some (JBool true) /\ dict_keys r = success_keys c) \/
     is_failure r) /\
  (forall u p r,
     (authenticate e s u p).1 = Returned r ->
     (dict_get r "success" = Some (JBool true) /\
      dict_keys r = ["success"; "access_token"; "token_type"; "expires_in"]) \/
     is_failure r).
Proof.
  assert (forall msg, is_failure (failure msg)) as Hf by (left; eauto).
  assert (forall what response, is_failure (status_failure what response)) as Hs
    by (right; unfold status_failure; eauto).
  split.
  - intros c r. destruct c; open_calls;
      repeat case_match; simpl; intros [= <-]; auto.
  - intros u p r. unfold authenticate.
    repeat case_match; simpl; intros [= <-]; auto.
Qed.

Ltac flip_negb :=
  repeat match goal with
         | H : negb _ = false |- _ => apply negb_false_iff in H
         | H : negb _ = true |- _ => apply negb_true_iff in H
         end.

Lemma results_have_uniform_shape_witness :
  is_failure [("success", JBool false);
              ("error", JStr "Status check failed with status 401");
              ("detail", JStr "token expired")].
Proof.
  destruct (results_have_uniform_shape unauthorized logged_in) as [H _].
  destruct (H (CheckStatus "ws-1") _ eq_refl) as [[Hs _]|Hf];
    [discriminate Hs|exact Hf].
Defined.

(** X14: A call reports success only when the token was valid, no path was
    missing, and the server answered its request with a status the call
    accepts: 200, or 201 as well for the three calls that post. *)
Theorem success_means_server_accepted
        (e : Env) (s : State) (c : Call) (r : Result) :
  (run e s c).1 = Returned r ->
  dict_get r "success" = Some (JBool true) ->
  is_token_valid e s = true /\
  missing_path e c = None /\
  exists response,
    http e (request_of e s c) = Reply response /\
    accepted c (status_code response) = true.
Proof.
  destruct c as [f1 f2 n|w cid m|cid f1 f2|w|w out]; open_calls;
    repeat case_match; simpl; intros [= <-] Hs; try discriminate Hs;
    flip_negb; simplify_eq/=;
    (split_and!; [done|by rewrite ?H, ?H0|eexists; split; [eassumption|done]]).
Qed.

Lemma success_means_server_accepted_witness :
  is_token_valid
    (world NEW_YEAR ["a.xlsx"; "b.xlsx"] (ok (JDict [("workspace_id", JStr "ws-1")])))
    logged_in = true.
Proof.
  apply (success_means_server_accepted
           (world NEW_YEAR ["a.xlsx"; "b.xlsx"] (ok (JDict [("workspace_id", JStr "ws-1")])))
           logged_in (RunReconciliation "cfg-1" "a.xlsx" "b.xlsx") _ eq_refl eq_refl).
Defined.

Lemma reaches_server_files (e : Env) (f1 f2 : string) :
  path_exists e f1 && path_exists e f2 &&
  negb (bool_decide (is_Some (open_error e f1 "rb"))) &&
  negb (bool_decide (is_Some (open_error e f2 "rb"))) = true ->
  path_exists e f1 = true /\ path_exists e f2 = true /\
  open_error e f1 "rb" = None /\ open_error e f2 "rb" = None.
Proof.
  intros [[[E1 E2]%andb_prop O1%is_Some_false]%andb_prop O2%is_Some_false]%andb_prop.
  done.
Qed.

Lemma reaches_server_directory (e : Env) (s : State) (out : string) :
  String.eqb (dirname e out) "" || path_exists e (dirname e out) ||
  negb (bool_decide (is_Some (makedirs_error e (dirname e out)))) = true ->
  (if negb (String.eqb (dirname e out) "") && negb (path_exists e (dirname e out))
   then (log s (EvMakedirs (dirname e out)), makedirs_error e (dirname e out))
   else (s, None))
  = (match directory_to_make e out with
     | Some d => log s (EvMakedirs d)
     | None => s
     end, None).
Proof.
  unfold directory_to_make. intros H.
  destruct (negb (String.eqb (dirname e out) "") &&
            negb (path_exists e (dirname e out))) eqn:Emk; [|done].
  apply andb_prop in Emk as [Ed Ep]. apply negb_true_iff in Ed, Ep.
  rewrite Ed, Ep in H. simpl in H. apply is_Some_false in H. by rewrite H.
Qed.

(** X15: Once a call has sent its request, any status it does not accept ends
    in the failure dictionary with the status in the message and the body
    as detail.  That includes the other 2xx codes: 201 for a status check
    or a download, 202 or 204 for an upload. *)
Theorem unaccepted_status_is_failure
        (e : Env) (s : State) (c : Call) (response : Response) :
  reaches_server e s c = true ->
  http e (request_of e s c) = Reply response ->
  accepted c (status_code response) = false ->
  (run e s c).1 =
    Returned [("success", JBool false);
              ("error", JStr (step_name c +:+ " failed with status " +:+
                              str_of_int (status_code response)));
              ("detail", match json response with
                         | JsonOk body => body
                         | JsonFail _ => JStr (text response)
                         end)].
Proof.
  intros Hreach Hr Hacc. unfold reaches_server in Hreach.
  apply andb_prop in Hreach as [Hv Hc].
  pose proof (get_auth_headers_granted _ _ Hv) as Hh.
  destruct c as [f1 f2 n|w cid m|cid f1 f2|w|w out]; simpl in Hr, Hacc, Hc |- *.
  - apply reaches_server_files in Hc as (E1 & E2 & O1 & O2).
    unfold upload_files, send_files.
    by rewrite E1, E2, Hh, O1, O2, Hr, Hacc.
  - unfold set_field_mapping. rewrite Hh.
    change (dict_set _ "Content-Type" _)
      with [("Authorization", HBearer (token s));
            ("Content-Type", HLit "application/json")].
    by rewrite Hr, Hacc.
  - apply reaches_server_files in Hc as (E1 & E2 & O1 & O2).
    unfold run_reconciliation, send_files.
    by rewrite E1, E2, Hh, O1, O2, Hr, Hacc.
  - unfold check_status. by rewrite Hh, Hr, Hacc.
  - unfold download_results. rewrite Hh.
    rewrite (reaches_server_directory _ s _ Hc).
    destruct (directory_to_make e out); simpl;
      unfold download_request in *; simpl; by rewrite Hr, Hacc.
Qed.

Lemma unaccepted_status_is_failure_witness :
  (run (world NEW_YEAR [] (Reply (mkResponse 201 (JsonOk (JDict [])) "{}" [] None)))
       logged_in (CheckStatus "ws-1")).1
  = Returned [("success", JBool false);
              ("error", JStr "Status check failed with status 201");
              ("detail", JDict [])].
Proof.
  apply (unaccepted_status_is_failure
           (world NEW_YEAR [] (Reply (mkResponse 201 (JsonOk (JDict [])) "{}" [] None)))
           logged_in (CheckStatus "ws-1")
           (mkResponse 201 (JsonOk (JDict [])) "{}" [] None)); reflexivity.
Defined.



(** X17: Two ways in which a call raises instead of returning a result.
    When the server accepts the request of an upload, a mapping, a run or a
    status check and its body decodes to JSON that is not an object, the
    call raises [AttributeError].  When the token is valid and the two files
    of an upload or a run are on disk but one of them cannot be opened, the
    call raises the [OSError] of that [open], of the first file if it fails,
    and no request is sent. *)
Theorem calls_raise_on_odd_bodies_and_unreadable_files
        (e : Env) (s : State) (c : Call) :
  (forall response v,
     reaches_server e s c = true ->
     (forall w out, c <> DownloadResults w out) ->
     http e (request_of e s c) = Reply response ->
     accepted c (status_code response) = true ->
     json response = JsonOk v ->
     is_object v = false ->
     (run e s c).1 = Raised AttributeError) /\
  (forall f1 f2 msg,
     (exists n, c = UploadFiles f1 f2 n) \/
     (exists cid, c = RunReconciliation cid f1 f2) ->
     is_token_valid e s = true ->
     missing_path e c = None ->
     open_error e f1 "rb" = Some msg \/
     (open_error e f1 "rb" = None /\ open_error e f2 "rb" = Some msg) ->
     (run e s c).1 = Raised (OSError msg) /\
     exists evs,
       trace (run e s c).2 = trace s ++ evs /\ requests evs = []).
Proof.
  split.
  - intros response v Hreach Hc Hh Hacc Hj Hv.
    unfold reaches_server in Hreach. apply andb_prop in Hreach as [Hval Hloc].
    pose proof (get_auth_headers_granted _ _ Hval) as Hg.
    destruct c as [f1 f2 n|w cid m|cid f1 f2|w|w out]; simpl in Hh, Hacc, Hloc.
    + apply andb_prop in Hloc as [[[E1 E2]%andb_prop O1%is_Some_false]%andb_prop
                                    O2%is_Some_false].
      simpl. unfold upload_files, send_files.
      rewrite E1, E2, Hg, O1, O2. simpl. rewrite Hh, Hacc, Hj.
      by destruct v.
    + simpl. unfold set_field_mapping. rewrite Hg.
      change (dict_set _ "Content-Type" _)
        with [("Authorization", HBearer (token s));
              ("Content-Type", HLit "application/json")].
      simpl. rewrite Hh, Hacc, Hj. by destruct v.
    + apply andb_prop in Hloc as [[[E1 E2]%andb_prop O1%is_Some_false]%andb_prop
                                    O2%is_Some_false].
      simpl. unfold run_reconciliation, send_files.
      rewrite E1, E2, Hg, O1, O2. simpl. rewrite Hh, Hacc, Hj.
      by destruct v.
    + simpl. unfold check_status. rewrite Hg. simpl. rewrite Hh, Hacc, Hj.
      by destruct v.
    + by destruct (Hc w out).
  - intros f1 f2 msg Hc Hval Hmiss Hopen.
    pose proof (get_auth_headers_granted _ _ Hval) as Hg.
    assert (path_exists e f1 = true /\ path_exists e f2 = true) as [E1 E2].
    { destruct Hc as [[n ->]|[cid ->]]; simpl in Hmiss;
        destruct (path_exists e f1), (path_exists e f2); done. }
    destruct Hc as [[n ->]|[cid ->]]; simpl;
      unfold upload_files, run_reconciliation, send_files;
      rewrite E1, E2, Hg; simpl;
      (destruct Hopen as [O1|[O1 O2]];
       [rewrite O1; simpl; split; [done|]; by exists [EvOpen f1 "rb"]
       |rewrite O1, O2; simpl; split; [done|];
        exists [EvOpen f1 "rb"; EvOpen f2 "rb"];
        split; [by rewrite <- app_assoc|done]]).
Qed.

Lemma calls_raise_on_odd_bodies_and_unreadable_files_witness :
  (run (world NEW_YEAR [] (ok (JList []))) logged_in (CheckStatus "ws-1")).1
    = Raised AttributeError /\
  (let locked :=
     mkEnv NEW_YEAR (fun _ => true)
       (fun path _ => if String.eqb path "b.xlsx"
                      then Some "Permission denied" else None)
       (fun _ => None) (fun _ _ => None)
       (fun path => path) (fun _ => "") (fun path => path)
       (fun _ => ok (JDict [])) in
   (run locked logged_in (UploadFiles "a.xlsx" "b.xlsx" "cfg")).1
     = Raised (OSError "Permission denied") /\
   requests (drop (length (trace logged_in))
               (trace (run locked logged_in
                         (UploadFiles "a.xlsx" "b.xlsx" "cfg")).2)) = []).
Proof.
  split.
  - destruct (calls_raise_on_odd_bodies_and_unreadable_files
                (world NEW_YEAR [] (ok (JList []))) logged_in
                (CheckStatus "ws-1")) as [H _].
    apply (H (mkResponse 200 (JsonOk (JList [])) "" [] None) (JList []));
      try reflexivity.
    intros w out. discriminate.
  - intros locked.
    destruct (calls_raise_on_odd_bodies_and_unreadable_files
                locked logged_in (UploadFiles "a.xlsx" "b.xlsx" "cfg"))
      as [_ H].
    destruct (H "a.xlsx" "b.xlsx" "Permission denied")
      as (Hr & evs & Htr & Hreq).
    + left. by exists "cfg".
    + reflexivity.
    + reflexivity.
    + right. split; reflexivity.
    + split; [exact Hr|]. rewrite Htr, drop_app_length. exact Hreq.
Defined.

(** *** Effects: at most one request, files first *)

Lemma log_all_nil (s : State) : log_all s [] = s.
Proof. destruct s. unfold log_all. simpl. by rewrite app_nil_r. Qed.

Lemma log_log_all (s : State) (evs : list Event) (ev : Event) :
  log (log_all s evs) ev = log_all s (evs ++ [ev]).
Proof. unfold log, log_all. simpl. by rewrite app_assoc. Qed.

Lemma log_all_log_all (s : State) (evs1 evs2 : list Event) :
  log_all (log_all s evs1) evs2 = log_all s (evs1 ++ evs2).
Proof. unfold log_all. simpl. by rewrite app_assoc. Qed.

Lemma log_as_log_all (s : State) (ev : Event) : log s ev = log_all s [ev].
Proof. done. Qed.

Lemma send_files_effects (e : Env) (s : State) (f1 f2 what net_what : string)
      (mk_request : list (string * HeaderVal) -> Request)
      (on_ok : list (string * Json) -> Result) :
  exists evs,
    (send_files e s f1 f2 mk_request what net_what on_ok).2 = log_all s evs /\
    evs `prefix_of`
      [EvOpen f1 "rb"; EvOpen f2 "rb";
       EvHttp (mk_request [("Authorization", HBearer (token s))])] /\
    (evs <> [] -> is_token_valid e s = true).
Proof.
  unfold send_files, get_auth_headers.
  destruct (is_token_valid e s); simpl.
  2: { exists []. rewrite log_all_nil. split_and!; [done|by eexists|done]. }
  repeat case_match; simpl;
    (eexists; split_and!;
     [rewrite ?log_as_log_all, ?log_all_log_all; reflexivity
     |simpl; by eexists|done]).
Qed.

(** X18: An upload and a run open the first file, then the second, and only
    then send their one request: what they do is always a beginning of
    that sequence, and they do nothing at all without a valid token or
    with a path missing. *)
Theorem files_are_opened_before_the_request
        (e : Env) (s : State) (c : Call) (f1 f2 : string) :
  (exists n, c = UploadFiles f1 f2 n) \/
  (exists cid, c = RunReconciliation cid f1 f2) ->
  exists evs,
    (run e s c).2 = log_all s evs /\
    evs `prefix_of`
      [EvOpen f1 "rb"; EvOpen f2 "rb"; EvHttp (request_of e s c)] /\
    (evs <> [] -> is_token_valid e s = true /\ missing_path e c = None).
Proof.
  intros [[n ->]|[cid ->]]; simpl.
  - unfold upload_files.
    destruct (path_exists e f1) eqn:E1; simpl;
      [destruct (path_exists e f2) eqn:E2; simpl|].
    + destruct (send_files_effects e s f1 f2 "Upload" "upload"
                  (fun headers => upload_request e s headers f1 f2 n)
                  (fun result =>
                     [("success", JBool true);
                      ("workspace_id", get_default result "workspace_id" JNone);
                      ("config_id", get_default result "config_id" JNone);
                      ("message", get_default result "message"
                                    (JStr "Files uploaded successfully"))]))
        as (evs & Hs & Hp & Hv).
      exists evs. split_and!; [done|done|]. intros Hne. split; [auto|done].
    + exists []. rewrite log_all_nil. split_and!; [done|by eexists|done].
    + exists []. rewrite log_all_nil. split_and!; [done|by eexists|done].
  - unfold run_reconciliation.
    destruct (path_exists e f1) eqn:E1; simpl;
      [destruct (path_exists e f2) eqn:E2; simpl|].
    + destruct (send_files_effects e s f1 f2 "Reconciliation" "reconciliation"
                  (fun headers => run_request e s headers cid f1 f2)
                  (fun result =>
                     [("success", JBool true);
                      ("workspace_id", get_default result "workspace_id" JNone);
                      ("message", get_default result "message"
                                    (JStr "Reconciliation started successfully"))]))
        as (evs & Hs & Hp & Hv).
      exists evs. split_and!; [done|done|]. intros Hne. split; [auto|done].
    + exists []. rewrite log_all_nil. split_and!; [done|by eexists|done].
    + exists []. rewrite log_all_nil. split_and!; [done|by eexists|done].
Qed.

Lemma files_are_opened_before_the_request_witness :
  exists evs,
    (run (world NEW_YEAR ["a.xlsx"; "b.xlsx"] (NetError "timed out" false))
         logged_in (UploadFiles "a.xlsx" "b.xlsx" "cfg")).2
      = log_all logged_in evs /\
    evs `prefix_of`
      [EvOpen "a.xlsx" "rb"; EvOpen "b.xlsx" "rb";
       EvHttp (request_of
                 (world NEW_YEAR ["a.xlsx"; "b.xlsx"] (NetError "timed out" false))
                 logged_in (UploadFiles "a.xlsx" "b.xlsx" "cfg"))].
Proof.
  destruct (files_are_opened_before_the_request
              (world NEW_YEAR ["a.xlsx"; "b.xlsx"] (NetError "timed out" false))
              logged_in (UploadFiles "a.xlsx" "b.xlsx" "cfg") "a.xlsx" "b.xlsx"
              (or_introl (ex_intro _ "cfg" eq_refl)))
    as (evs & Hs & Hp & _).
  by exists evs.
Defined.

Lemma extends_log_all (s s' : State) (evs : list Event) :
  extends s s' evs -> s' = log_all s evs.
Proof.
  destruct s'. unfold extends, log_all. simpl.
  by intros (-> & -> & -> & ->).
Qed.

Lemma download_effects (e : Env) (s : State) (w out : string) :
  exists evs,
    (download_results e s w out).2 = log_all s evs /\
    (requests evs = [] \/
     (requests evs = [request_of e s (DownloadResults w out)] /\
      is_token_valid e s = true)).
Proof.
  unfold download_results, get_auth_headers.
  destruct (is_token_valid e s) eqn:Hv; simpl.
  2: { exists []. rewrite log_all_nil. split; [done|by left]. }
  match goal with
  | |- context [if ?b then (?a, ?x) else ?c] =>
      set (made := if b then (a, x) else c)
  end.
  assert (exists evs0, made.1 = log_all s evs0 /\ requests evs0 = []) as Hmade.
  { subst made. case_match; simpl.
    - by exists [EvMakedirs (dirname e out)].
    - exists []. by rewrite log_all_nil. }
  destruct made as [s0 [msg|]]; simpl in Hmade;
    destruct Hmade as (evs0 & -> & Hreq0).
  { exists evs0. split; [done|by left]. }
  change (download_request (log_all s evs0) _ w)
    with (request_of e s (DownloadResults w out)).
  set (req := request_of e s (DownloadResults w out)).
  assert (forall evs, requests evs = [] ->
            requests ((evs0 ++ [EvHttp req]) ++ evs) = [req]) as Hone.
  { intros evs Hevs. by rewrite !requests_app, Hreq0, Hevs. }
  rewrite log_log_all.
  destruct (http e req) as [response|msg ve]; simpl.
  2: { eexists. split; [reflexivity|]. right. split; [|done].
       rewrite <- (app_nil_r (evs0 ++ _)). by apply Hone. }
  destruct (status_code response =? 200); simpl.
  2: { eexists. split; [reflexivity|]. right. split; [|done].
       rewrite <- (app_nil_r (evs0 ++ _)). by apply Hone. }
  rewrite log_log_all.
  destruct (open_error e out "wb") as [msg|]; simpl.
  { eexists. split; [reflexivity|]. right. split; [|done]. by apply (Hone [_]). }
  destruct (write_chunks e _ out (content_chunks response) 0) as [r s3] eqn:Ew.
  destruct (write_chunks_extends _ _ _ _ _ _ _ Ew) as (evs3 & Hext3 & Hreq3).
  apply extends_log_all in Hext3 as ->. rewrite log_all_log_all.
  assert (requests (((evs0 ++ [EvHttp req]) ++ [EvOpen out "wb"]) ++ evs3)
          = [req]) as Hall.
  { rewrite <- app_assoc. apply Hone. by rewrite requests_app, Hreq3. }
  repeat case_match; simpl; (eexists; split; [reflexivity|by right]).
Qed.

(** X19: No call retries: each of the five sends at most one request, its own,
    and only with a valid token; [authenticate] sends exactly one, which
    carries the credentials as form fields and no [Authorization]
    header. *)
Theorem every_call_sends_at_most_one_request (e : Env) (s : State) :
  (forall c, exists evs,
     (run e s c).2 = log_all s evs /\
     (requests evs = [] \/
      (requests evs = [request_of e s c] /\ is_token_valid e s = true))) /\
  (forall u p,
     trace (authenticate e s u p).2 = trace s ++ [EvHttp (login_request s u p)] /\
     req_data (login_request s u p) = [("username", u); ("password", p)] /\
     dict_get (req_headers (login_request s u p)) "Authorization" = None).
Proof.
  split.
  - intros c. destruct c as [f1 f2 n|w cid m|cid f1 f2|w|w out];
      [| | | |apply download_effects];
      open_calls; repeat case_match; simpl; flip_negb; simplify_eq;
      first [ exists []; rewrite log_all_nil; split; [done|by left]
            | eexists; split;
              [rewrite ?log_as_log_all, ?log_all_log_all; reflexivity
              |simpl; first [by left|by right]] ].
  - intros u p. split_and!; [|done|done].
    unfold authenticate. repeat case_match; done.
Qed.

(** *** Downloads *)

Lemma total_length_written (chunks : list string) :
  total_length (written_chunks chunks) = total_length chunks.
Proof.
  unfold written_chunks. induction chunks as [|chunk rest IH]; [done|].
  rewrite filter_cons. destruct (decide (chunk <> "")) as [Hne|He]; simpl.
  - by rewrite IH.
  - rewrite IH. destruct chunk; [done|]. by destruct He.
Qed.

Lemma write_chunks_all (e : Env) (out : string) (chunks : list string) :
  (forall chunk, In chunk chunks -> write_error e out chunk = None) ->
  forall s n,
    write_chunks e s out chunks n
    = (inr (n + total_length chunks)%nat,
       log_all s (map (EvWrite out) (written_chunks chunks))).
Proof.
  unfold written_chunks.
  induction chunks as [|chunk rest IH]; intros Hok s n; simpl.
  - by rewrite log_all_nil, Nat.add_0_r.
  - rewrite filter_cons.
    destruct (String.eqb_spec chunk "") as [->|Hne]; simpl.
    + rewrite IH by (intros; apply Hok; by right).
      by destruct (decide ("" <> "")).
    + rewrite (Hok chunk) by (by left).
      rewrite IH by (intros; apply Hok; by right).
      destruct (decide (chunk <> "")); [|done]. simpl.
      rewrite log_as_log_all, log_all_log_all. f_equal. f_equal. lia.
Qed.

(** X20: A download that goes through writes the non-empty chunks of the body
    in order, after making the directory if it was missing, sending the
    request and opening the file, and reports as [file_size] the number of
    bytes it wrote, with the absolute path of the file. *)
Theorem download_reports_bytes_written
        (e : Env) (s : State) (w out : string) (response : Response) :
  reaches_server e s (DownloadResults w out) = true ->
  http e (request_of e s (DownloadResults w out)) = Reply response ->
  status_code response = 200 ->
  open_error e out "wb" = None ->
  (forall chunk, In chunk (content_chunks response) ->
                 write_error e out chunk = None) ->
  content_error response = None ->
  run e s (DownloadResults w out) =
    (Returned [("success", JBool true);
               ("file_path", JStr (abspath e out));
               ("file_size",
                JInt (Z.of_nat (total_length
                                  (written_chunks (content_chunks response)))))],
     log_all s (directory_events e out ++
                [EvHttp (request_of e s (DownloadResults w out));
                 EvOpen out "wb"] ++
                map (EvWrite out) (written_chunks (content_chunks response)))).
Proof.
  intros Hreach Hr H200 Ho Hw Hc. unfold reaches_server in Hreach.
  apply andb_prop in Hreach as [Hv Hd].
  rewrite total_length_written.
  simpl. unfold download_results.
  rewrite (get_auth_headers_granted _ _ Hv).
  rewrite (reaches_server_directory _ s _ Hd). unfold directory_events.
  destruct (directory_to_make e out) as [d|]; simpl in Hr |- *;
    unfold download_request in *; simpl;
    rewrite Hr, H200; simpl; rewrite Ho, (write_chunks_all _ _ _ Hw), Hc;
    rewrite ?log_as_log_all, ?log_all_log_all; reflexivity.
Qed.

Lemma download_reports_bytes_written_witness :
  (run (world_with_dirs NEW_YEAR [] false
          (Reply (mkResponse 200 (JsonFail "") "" ["PK"; ""; "data"] None)))
       logged_in (DownloadResults "ws-1" "out/result.xlsx")).1
  = Returned [("success", JBool true);
              ("file_path", JStr "/srv/out/result.xlsx");
              ("file_size", JInt 6)].
Proof.
  rewrite (download_reports_bytes_written
             (world_with_dirs NEW_YEAR [] false
                (Reply (mkResponse 200 (JsonFail "") "" ["PK"; ""; "data"] None)))
             logged_in "ws-1" "out/result.xlsx"
             (mkResponse 200 (JsonFail "") "" ["PK"; ""; "data"] None));
    reflexivity.
Defined.



End CallFacts.

(** ** Logins that go wrong *)

Section LoginFacts.
Import ReconApi Session Cover.
Local Open Scope Z_scope.

(** A lifetime that is no number stops the computation of the expiry at
    the subtraction; an integer one stops it where [timedelta] or the sum
    leave their ranges. *)
Lemma expiration_of_not_a_number (e : Env) (v : Json) :
  not_a_number v = true -> expiration_of e v = Raised TypeError.
Proof. unfold expiration_of. by destruct v. Qed.

Lemma expiration_of_out_of_range (e : Env) (v : Json) (n : Z) :
  int_value v = Some n ->
  999999999 < Z.abs ((n - 60) / 86400) \/
  now e + (n - 60) * 1000000 < 0 \/
  DATETIME_MAX < now e + (n - 60) * 1000000 ->
  expiration_of e v = Raised OverflowError.
Proof.
  intros Hn Hr.
  assert (sub_int v 60 = Returned (n - 60)) as Hs.
  { destruct v; simpl in Hn |- *; by simplify_eq. }
  unfold expiration_of. rewrite Hs. unfold timedelta_seconds, datetime_add.
  destruct (Z.leb_spec (Z.abs ((n - 60) / 86400)) 999999999); [|done].
  destruct (Z.leb_spec 0 (now e + (n - 60) * 1000000)); simpl; [|done].
  destruct (Z.leb_spec (now e + (n - 60) * 1000000) DATETIME_MAX); [|done].
  lia.
Qed.

(** X22: Where a login raises instead of returning.  Take an answer with
    status 200 whose body decodes to JSON.  When the body is not an object,
    [authenticate] raises [AttributeError] and leaves the token and the
    expiry alone.  When it is an object whose [expires_in] is [null], a
    string, a list or an object, [authenticate] raises [TypeError]; when
    [expires_in] is an integer, or absent, for which [timedelta] or the
    expiry instant are out of range, it raises [OverflowError].  In these
    two cases the [access_token] of the answer has already been stored,
    while the expiry is still the old one. *)
Theorem login_raises_after_storing_token
        (e : Env) (s : State) (u p : string) (response : Response) (v : Json) :
  http e (login_request s u p) = Reply response ->
  status_code response = 200 ->
  json response = JsonOk v ->
  (is_object v = false ->
   exists s',
     authenticate e s u p = (Raised AttributeError, s') /\
     token s' = token s /\
     token_expiration s' = token_expiration s /\
     trace s' = trace s ++ [EvHttp (login_request s u p)]) /\
  (forall d ex,
     v = JDict d ->
     (ex = TypeError /\
      not_a_number (get_default d "expires_in" (JInt 3600)) = true) \/
     (ex = OverflowError /\
      exists n,
        int_value (get_default d "expires_in" (JInt 3600)) = Some n /\
        (999999999 < Z.abs ((n - 60) / 86400) \/
         now e + (n - 60) * 1000000 < 0 \/
         DATETIME_MAX < now e + (n - 60) * 1000000)) ->
     exists s',
       authenticate e s u p = (Raised ex, s') /\
       token s' = get_default d "access_token" JNone /\
       token_expiration s' = token_expiration s /\
       trace s' = trace s ++ [EvHttp (login_request s u p)]).
Proof.
  intros Hh H200 Hj. split.
  - intros Hv. eexists. split.
    { unfold authenticate. rewrite Hh, H200, Hj. by destruct v. }
    done.
  - intros d ex -> Hex.
    assert (expiration_of e (get_default d "expires_in" (JInt 3600))
            = Raised ex) as He.
    { destruct Hex as [[-> Hn]|[-> (n & Hn & Hr)]].
      - by apply expiration_of_not_a_number.
      - by apply (expiration_of_out_of_range _ _ n). }
    eexists. split.
    { unfold authenticate. rewrite Hh, H200, Hj, He. reflexivity. }
    done.
Qed.

Lemma login_raises_after_storing_token_witness :
  exists s',
    authenticate lifetime_as_text logged_in "user@example.com" "secret"
      = (Raised TypeError, s') /\
    token logged_in = JStr "tok-1" /\ token s' = JStr "tok-2" /\
    token_expiration s' = token_expiration logged_in /\
    is_token_valid lifetime_as_text s' = true.
Proof.
  destruct (login_raises_after_storing_token lifetime_as_text logged_in
              "user@example.com" "secret"
              (mkResponse 200
                 (JsonOk (JDict [("access_token", JStr "tok-2");
                                 ("expires_in", JStr "3600")])) "" [] None)
              _ eq_refl eq_refl eq_refl) as [_ H].
  destruct (H _ TypeError eq_refl) as (s' & Ha & Ht & Hx & _).
  { left. split; reflexivity. }
  exists s'. split; [exact Ha|]. split; [reflexivity|].
  split; [exact Ht|]. split; [exact Hx|].
  apply is_token_valid_iff. rewrite Ht, Hx. split; [reflexivity|].
  eexists. split; [reflexivity|]. reflexivity.
Defined.

(** X23: A login that reports success with [expires_in] of 60 seconds or less
    leaves a token that is never valid: not at the login time and not at
    any later time. *)
Theorem short_lived_token_is_never_valid
        (e e' : Env) (s s' : State) (u p : string) (r : Result)
        (v : Json) (n : Z) :
  authenticate e s u p = (Returned r, s') ->
  dict_get r "success" = Some (JBool true) ->
  dict_get r "expires_in" = Some v ->
  int_value v = Some n ->
  n <= 60 ->
  now e <= now e' ->
  is_token_valid e' s' = false.
Proof.
  intros Ha Hs Hv Hn H60 Hlate.
  destruct (authenticate_success_inv _ _ _ _ _ _ Ha Hs)
    as (response & d & expiration & _ & _ & _ & He & -> & ->).
  injection Hv as <-.
  destruct (expiration_of_inv _ _ _ He) as (n' & Hn' & -> & _).
  rewrite Hn in Hn'. injection Hn' as <-.
  apply not_true_is_false. rewrite is_token_valid_iff. simpl.
  intros [_ (x & [= <-] & Hlt)]. lia.
Qed.

Lemma short_lived_token_is_never_valid_witness :
  is_token_valid
    (world NEW_YEAR [] (ok (JDict [("access_token", JStr "tok-3");
                                   ("expires_in", JInt 60)])))
    (authenticate
       (world NEW_YEAR [] (ok (JDict [("access_token", JStr "tok-3");
                                      ("expires_in", JInt 60)])))
       fresh_client "user@example.com" "secret").2
  = false.
Proof.
  apply (short_lived_token_is_never_valid
           (world NEW_YEAR [] (ok (JDict [("access_token", JStr "tok-3");
                                          ("expires_in", JInt 60)])))
           (world NEW_YEAR [] (ok (JDict [("access_token", JStr "tok-3");
                                          ("expires_in", JInt 60)])))
           fresh_client _ "user@example.com" "secret" _ (JInt 60) 60
           eq_refl eq_refl eq_refl eq_refl); simpl; lia.
Defined.

Lemma expired_token_stays_expired_witness :
  is_token_valid
    (world (NEW_YEAR + 7200 * 1000000) [] (ok JNone))
    (run_all logged_in
       [(world (NEW_YEAR + 3600 * 1000000) [] (ok JNone), CheckStatus "ws-1");
        (world (NEW_YEAR + 3700 * 1000000) [] (ok JNone), CheckStatus "ws-1")]).2
  = false.
Proof.
  apply (expired_token_stays_expired
           (world (NEW_YEAR + 3600 * 1000000) [] (ok JNone))
           (world (NEW_YEAR + 7200 * 1000000) [] (ok JNone)) logged_in).
  - reflexivity.
  - simpl. lia.
Defined.

End LoginFacts.

(** ** The tool layer *)

Section ServerFacts.
Import Config ReconApi Session Cover Settings.

Lemma mapM_weaken {A B : Type} (f g : A -> option B) (xs : list A) (ys : list B) :
  (forall x y, x ∈ xs -> f x = Some y -> g x = Some y) ->
  mapM f xs = Some ys -> mapM g xs = Some ys.
Proof.
  rewrite !mapM_Some. intros Hfg H.
  induction H as [|x y xs ys Hxy H IH]; constructor.
  - apply Hfg; [by left|done].
  - apply IH. intros x' y' Hin. apply Hfg. by right.
Qed.

(** More fuel and a longer heap do not change what is read. *)
Lemma to_json_mono (fuel : nat) :
  forall (h h2 : Heap) (v : Val) (j : Json) (fuel' : nat),
    Server.to_json fuel h v = Some j -> (fuel <= fuel')%nat ->
    Server.to_json fuel' (h ++ h2) v = Some j.
Proof.
  induction fuel as [|fuel IH]; intros h h2 v j fuel' Hj Hle;
    destruct v as [| | | |l]; try (destruct fuel'; exact Hj); simpl in Hj;
    [discriminate|].
  destruct fuel' as [|fuel']; [lia|]. simpl.
  destruct (h !! l) as [o|] eqn:El; [|discriminate].
  rewrite (lookup_extend _ h2 _ _ El).
  destruct o as [d|xs]; apply fmap_Some in Hj as (ys & Hys & ->);
    apply fmap_Some; exists ys; (split; [|done]);
    (eapply mapM_weaken; [|exact Hys]); simpl.
  - intros kv y _ (y' & Hy' & ->)%fmap_Some. apply fmap_Some. exists y'.
    split; [|done]. apply IH; [done|lia].
  - intros x y _ Hy. apply IH; [done|lia].
Qed.

Lemma object_json_mono (fuel fuel' : nat) (h h2 : Heap) (o : Obj) (j : Json) :
  object_json fuel h o = Some j -> (fuel <= fuel')%nat ->
  object_json fuel' (h ++ h2) o = Some j.
Proof.
  intros Hj Hle.
  destruct o as [d|xs]; simpl in *; apply fmap_Some in Hj as (ys & Hys & ->);
    apply fmap_Some; exists ys; (split; [|done]);
    (eapply mapM_weaken; [|exact Hys]); simpl.
  - intros kv y _ (y' & Hy' & ->)%fmap_Some. apply fmap_Some. exists y'.
    split; [|done]. by apply to_json_mono with (fuel := fuel).
  - intros x y _ Hy. by apply to_json_mono with (fuel := fuel).
Qed.

Lemma to_json_ref (fuel : nat) (h : Heap) (l : loc) (o : Obj) :
  h !! l = Some o ->
  Server.to_json (S fuel) h (VRef l) = object_json fuel h o.
Proof. intros El. simpl. rewrite El. by destruct o. Qed.

(** X24: With [use_samsung_template] the tool sends what the template
    serialises to at that moment, and a custom mapping given beside it is
    ignored: the call is the client's [set_field_mapping] with that body.
    The heap gains the copy of the template's dictionary and the template
    still serialises to the same body.  Right after the module has loaded,
    the body is the document of the ten Samsung mappings. *)
Theorem tool_sends_the_template_document
        (e : Env) (h : Heap) (s : State) (workspace_id config_id : string)
        (custom_mappings : option Json) (o : Obj) (body : Json) :
  h !! SAMSUNG_FIELD_MAPPINGS = Some o ->
  Server.to_json (S (length h)) h (VRef SAMSUNG_FIELD_MAPPINGS) = Some body ->
  Server.set_field_mapping e h s workspace_id config_id true custom_mappings
    = ((ReconApi.set_field_mapping e s workspace_id config_id body).1,
       h ++ [o],
       (ReconApi.set_field_mapping e s workspace_id config_id body).2) /\
  Server.to_json (S (length (h ++ [o]))) (h ++ [o]) (VRef SAMSUNG_FIELD_MAPPINGS)
    = Some body /\
  (is_token_valid e s = true ->
   (ReconApi.set_field_mapping e s workspace_id config_id body).2
     = log s (EvHttp (request_of e s
                        (SetFieldMapping workspace_id config_id body))) /\
   req_json (request_of e s (SetFieldMapping workspace_id config_id body))
     = Some body) /\
  Server.to_json (S (length module_heap)) module_heap (VRef SAMSUNG_FIELD_MAPPINGS)
    = Some (document_json SAMSUNG_ENTRIES).
Proof.
  intros Ho Hbody. rewrite (to_json_ref _ _ _ _ Ho) in Hbody.
  split_and!.
  - unfold Server.set_field_mapping, get_field_mapping_template. cbn [dict_get].
    rewrite String.eqb_refl. unfold copy, alloc. rewrite Ho.
    cbv iota beta.
    assert (Server.to_json (S (length (h ++ [o]))) (h ++ [o]) (VRef (length h))
            = Some body) as ->.
    { rewrite (to_json_ref _ _ _ o).
      - apply object_json_mono with (fuel := length h); [done|].
        rewrite length_app. simpl. lia.
      - rewrite lookup_app_r by lia. by rewrite Nat.sub_diag. }
    by destruct (ReconApi.set_field_mapping e s workspace_id config_id body).
  - rewrite (to_json_ref _ _ _ o) by (by apply lookup_extend).
    apply object_json_mono with (fuel := length h); [done|].
    rewrite length_app. simpl. lia.
  - intros Hv. split; [|done].
    unfold ReconApi.set_field_mapping.
    rewrite (get_auth_headers_granted _ _ Hv). by repeat case_match.
  - reflexivity.
Qed.

Lemma tool_sends_the_template_document_witness :
  (Server.set_field_mapping unauthorized module_heap logged_in "ws-1" "cfg-1"
     true None).1.1
  = Returned [("success", JBool false);
              ("error", JStr "Field mapping failed with status 401");
              ("detail", JStr "token expired")] /\
  req_json (request_of unauthorized logged_in
              (SetFieldMapping "ws-1" "cfg-1" (document_json SAMSUNG_ENTRIES)))
  = Some (document_json SAMSUNG_ENTRIES).
Proof.
  destruct (tool_sends_the_template_document unauthorized module_heap logged_in
              "ws-1" "cfg-1" None _ (document_json SAMSUNG_ENTRIES)
              eq_refl eq_refl) as (Htool & _ & Hsent & _).
  split; [by rewrite Htool|]. by apply Hsent.
Defined.

Lemma authenticate_answers (e : Env) (s : State) (u p : string) :
  trace (authenticate e s u p).2 = trace s ++ [EvHttp (login_request s u p)] /\
  forall r, (authenticate e s u p).1 = Returned r ->
    exists b, dict_get r "success" = Some (JBool b) /\
              (b = true -> exists v, dict_get r "expires_in" = Some v).
Proof.
  unfold authenticate. split.
  - repeat case_match; done.
  - intros r. repeat case_match; simpl; intros [= <-];
      first [ by exists false | exists true; split; [done|]; intros _; by eexists ].
Qed.

(** X25: The server logs in at start exactly when both a user name and a
    password are configured: then it sends one login request with them,
    otherwise none.  A login that is refused or cannot be carried out does
    not stop the start; the only thing that does is an exception raised by
    [authenticate]. *)
Theorem startup_logs_in_only_with_credentials
        (g : Globals) (dotenv_exists : bool) (e : Env) :
  (nonempty (USERNAME g) && nonempty (PASSWORD g) = false ->
   (Server.main g dotenv_exists e).1 = (Returned tt, Server.api_client g)) /\
  (nonempty (USERNAME g) && nonempty (PASSWORD g) = true ->
   (Server.main g dotenv_exists e).1.2
     = (authenticate e (Server.api_client g) (USERNAME g) (PASSWORD g)).2 /\
   trace (Server.main g dotenv_exists e).1.2
     = [EvHttp (login_request (Server.api_client g) (USERNAME g) (PASSWORD g))] /\
   (Server.main g dotenv_exists e).1.1
     = match (authenticate e (Server.api_client g) (USERNAME g) (PASSWORD g)).1 with
       | Raised ex => Raised ex
       | Returned _ => Returned tt
       end).
Proof.
  unfold Server.main. split; intros ->; [done|].
  pose proof (authenticate_answers e (Server.api_client g) (USERNAME g) (PASSWORD g))
    as [Htr Hkeys].
  destruct (authenticate e (Server.api_client g) (USERNAME g) (PASSWORD g))
    as [[r|ex] s'] eqn:Ea; [|done].
  destruct (Hkeys r eq_refl) as (b & -> & Hb).
  destruct b; [|done]. destruct (Hb eq_refl) as (v & ->). done.
Qed.

Lemma startup_logs_in_only_with_credentials_witness :
  (Server.main (mkGlobals "https://recon.benow.in/api/recon/" "" "secret" false)
     true good_login).1
  = (Returned tt, fresh_client) /\
  (Server.main (mkGlobals "https://recon.benow.in/api/recon/"
                  "user@example.com" "secret" false) true lifetime_as_text).1.1
  = Raised TypeError.
Proof.
  destruct (startup_logs_in_only_with_credentials
              (mkGlobals "https://recon.benow.in/api/recon/" "" "secret" false)
              true good_login) as [H0 _].
  destruct (startup_logs_in_only_with_credentials
              (mkGlobals "https://recon.benow.in/api/recon/"
                 "user@example.com" "secret" false) true lifetime_as_text)
    as [_ H1].
  split.
  - apply H0. reflexivity.
  - destruct (H1 eq_refl) as (_ & _ & ->). reflexivity.
Defined.

End ServerFacts.

(** ** Where requests go *)

Section RequestFacts.
Import ReconApi Session Cover Settings.
Local Open Scope Z_scope.

(** X26: Every request one of the five calls sends goes to the base URL of the
    client followed by a path that starts with a slash, and waits at most
    120 seconds when files or results are transferred and 30 seconds
    otherwise; only a download asks for a streamed body. *)
Theorem requests_go_to_base_url
        (e : Env) (s s' : State) (c : Call) (o : Outcome Result)
        (evs : list Event) (req : Request) :
  run e s c = (o, s') ->
  trace s' = trace s ++ evs ->
  In req (requests evs) ->
  (exists path, req_url req = base_url s +:+ path /\
                String.prefix "/" path = true) /\
  req_timeout req = match c with
                    | SetFieldMapping _ _ _ | CheckStatus _ => 30
                    | _ => 120
                    end /\
  req_stream req = match c with DownloadResults _ _ => true | _ => false end.
Proof.
  intros Hrun Htr Hin.
  destruct (run_extends _ _ _ _ _ Hrun) as (evs' & (_ & _ & _ & Htr') & Hreq).
  rewrite Htr' in Htr. apply app_inv_head in Htr as <-.
  destruct (Hreq _ Hin) as [_ ->].
  destruct c; simpl; (split; [eexists; split; [reflexivity|done]|done]).
Qed.

Lemma requests_go_to_base_url_witness :
  req_url (request_of unauthorized logged_in (CheckStatus "ws-1"))
    = "https://recon.benow.in/api/recon" +:+ "/workspaces/ws-1/status" /\
  req_timeout (request_of unauthorized logged_in (CheckStatus "ws-1")) = 30.
Proof.
  destruct (requests_go_to_base_url unauthorized logged_in _ (CheckStatus "ws-1")
              _ [EvHttp (request_of unauthorized logged_in (CheckStatus "ws-1"))]
              (request_of unauthorized logged_in (CheckStatus "ws-1"))
              eq_refl eq_refl (or_introl eq_refl)) as (_ & Ht & _).
  split; [reflexivity|exact Ht].
Defined.

Lemma config_valid_iff_http_url_witness :
  valid (validate_config (mkGlobals "https://recon.benow.in/api/recon" "" "" false)
           false) = true /\
  valid (validate_config (mkGlobals "ftp://recon.benow.in" "u" "p" false) true)
    = false.
Proof.
  destruct (config_valid_iff_http_url
              (mkGlobals "https://recon.benow.in/api/recon" "" "" false) false)
    as ([_ Hyes] & _).
  destruct (config_valid_iff_http_url
              (mkGlobals "ftp://recon.benow.in" "u" "p" false) true)
    as ([Hno _] & _).
  split.
  - apply Hyes. by right.
  - apply not_true_is_false. intros Hv. by destruct (Hno Hv).
Defined.

Lemma config_warnings_follow_credentials_witness :
  warnings (validate_config
              (mkGlobals "https://recon.benow.in/api/recon" "u" "p" false) false)
  = [].
Proof.
  destruct (config_warnings_follow_credentials
              (mkGlobals "https://recon.benow.in/api/recon" "u" "p" false) false)
    as ([_ Hnone] & _).
  apply Hnone. by split.
Defined.

Lemma template_call_only_allocates_witness :
  (Config.get_field_mapping_template Config.module_heap "SAMSUNG").1
    = Returned (Config.VRef 12%nat) /\
  (Config.get_field_mapping_template Config.module_heap "lg").2
    = Config.module_heap.
Proof.
  destruct (template_call_only_allocates Config.module_heap "SAMSUNG")
    as (_ & Hr & _).
  destruct (template_call_only_allocates Config.module_heap "lg")
    as (_ & _ & Hx).
  split.
  - destruct (Hr (Config.VRef 12%nat) eq_refl) as (-> & _). reflexivity.
  - by apply (Hx (ValueError "Unknown template: lg. Available templates: samsung")).
Defined.

End RequestFacts.
